(** * A shallow embedding of the chatbot front end

    The development follows the JavaScript modules of the repository:
    [config.js], [utils.js], [apiService.js], [statusManager.js],
    [resultsModule.js] and [chatModule.js].  Strings are sequences of
    UTF-16 code units, values received from the backend are JSON values,
    exceptions are an explicit completion type, the DOM elements the
    modules hold are records, and the network and the timers are an
    environment that answers the requests in the order they are issued.
    What the modules write to the console is not part of the state. *)

From Stdlib Require Import String Ascii DecimalString.
From Stdlib Require Import List NArith ZArith Bool Lia.
From Equations Require Import Equations.
Import ListNotations.

Set Implicit Arguments.
Set Warnings "-register-all".

(** ** JavaScript strings *)

Definition code_unit := N.
Definition jsstring := list code_unit.

(** An ASCII literal as a JavaScript string. *)
Definition lit (s : string) : jsstring :=
  map N_of_ascii (list_ascii_of_string s).
Arguments lit s%_string.

Definition AMP  : code_unit := 38%N.   (* & *)
Definition LT   : code_unit := 60%N.   (* < *)
Definition GT   : code_unit := 62%N.   (* > *)
Definition DQUOTE : code_unit := 34%N. (* double quote *)
Definition SQUOTE : code_unit := 39%N. (* ' *)
Definition NBSP : code_unit := 160%N.  (* U+00A0 *)
Definition UNDERSCORE : code_unit := 95%N.
Definition SPACE : code_unit := 32%N.
Definition NL : code_unit := 10%N.

(** A double-quoted attribute value, as it appears in the templates. *)
Definition quoted (s : string) : jsstring := DQUOTE :: lit s ++ [DQUOTE].
Arguments quoted s%_string.

(** A line break followed by [n] spaces of indentation (template text). *)
Definition nl (n : nat) : jsstring := NL :: repeat SPACE n.

Fixpoint str_eqb (a b : jsstring) : bool :=
  match a, b with
  | [], [] => true
  | x :: a', y :: b' => N.eqb x y && str_eqb a' b'
  | _, _ => false
  end.

Fixpoint starts_with (p s : jsstring) : bool :=
  match p, s with
  | [], _ => true
  | x :: p', y :: s' => N.eqb x y && starts_with p' s'
  | _ :: _, [] => false
  end.

(** [String.prototype.includes]. *)
Fixpoint includes (s p : jsstring) : bool :=
  starts_with p s ||
  match s with
  | [] => false
  | _ :: s' => includes s' p
  end.

(** Number of (possibly overlapping) occurrences of [p] in [s]. *)
Fixpoint occurrences (p s : jsstring) : nat :=
  (if starts_with p s then 1 else 0) +
  match s with
  | [] => 0
  | _ :: s' => occurrences p s'
  end.

(** Decimal digits of a non-negative integer, as [ToString] prints it. *)
Definition N_to_dec (n : N) : jsstring :=
  lit (NilZero.string_of_uint (N.to_uint n)).

(** [String.prototype.replaceAll] for a one-code-unit pattern. *)
Definition replace_unit (c : code_unit) (by_ : jsstring) (s : jsstring) : jsstring :=
  flat_map (fun x => if N.eqb x c then by_ else [x]) s.

(** WhiteSpace and LineTerminator code points, which [trim] strips. *)
Definition is_trim_space (c : code_unit) : bool :=
  existsb (N.eqb c)
    [9; 10; 11; 12; 13; 32; 160; 5760; 8232; 8233; 8239; 8287; 12288; 65279]%N
  || (N.leb 8192 c && N.leb c 8202).

Fixpoint trimStart (s : jsstring) : jsstring :=
  match s with
  | c :: s' => if is_trim_space c then trimStart s' else s
  | [] => []
  end.

Definition trimEnd (s : jsstring) : jsstring := rev (trimStart (rev s)).

(** [String.prototype.trim]. *)
Definition trim (s : jsstring) : jsstring := trimEnd (trimStart s).

(** ** Exceptions *)

Inductive error_name := Error_ | TypeError | SyntaxError | AbortError.

Record js_error := mk_error { name : error_name; message : jsstring }.

(** The result of evaluating a piece of code: a value or a thrown error. *)
Inductive completion (A : Type) :=
| Normal (a : A)
| Throw (e : js_error).
Arguments Normal {A} a.
Arguments Throw {A} e.

Definition bind {A B} (c : completion A) (k : A -> completion B) : completion B :=
  match c with
  | Normal a => k a
  | Throw e => Throw e
  end.

Notation "x <- c ;; k" := (bind c (fun x => k))
  (at level 61, c at next level, right associativity).

Fixpoint mapM {A B} (f : A -> completion B) (l : list A) : completion (list B) :=
  match l with
  | [] => Normal []
  | x :: l' => y <- f x ;; ys <- mapM f l' ;; Normal (y :: ys)
  end.

Definition is_throw {A} (c : completion A) : bool :=
  match c with Throw _ => true | Normal _ => false end.

(** Faults the engine itself raises; the wording of their messages is
    left to the engine. *)
Inductive fault :=
| ReadOfNullish (key : jsstring)   (* property read on undefined or null *)
| NotAFunction (key : jsstring)    (* call of a non-callable member *)
| ToObjectOfNullish                (* Object.entries / Object.keys of undefined or null *)
| NoPrimitive                      (* an object without a usable toString *)
| BadJson                          (* response.json() on a malformed body *)
| NetworkFailure                   (* fetch could not reach the server *)
| Aborted.                         (* the abort signal fired during fetch *)

Definition fault_name (f : fault) : error_name :=
  match f with
  | BadJson => SyntaxError
  | Aborted => AbortError
  | _ => TypeError
  end.

(** ** JSON values *)

Section Values.
Variable number : Type.

Inductive JSValue :=
| VUndefined
| VNull
| VBool (b : bool)
| VNum (n : number)
| VStr (s : jsstring)
| VArr (elems : list JSValue)
| VObj (props : list (jsstring * JSValue)).
End Values.

Arguments VUndefined {number}.
Arguments VNull {number}.
Arguments VBool {number} b.
Arguments VStr {number} s.

(** What the host supplies and the repository does not define: the
    Number type of the engine, the [Intl] formatter and the texts of
    engine-raised errors. *)
Class Host := {
  number : Type;
  Number_toString : number -> jsstring;
  (** [+0], [-0] and [NaN] are the falsy numbers *)
  Number_is_falsy : number -> bool;
  (** the abstract relational comparison [v > 0] *)
  greater_than_zero : JSValue number -> completion bool;
  (** [new Intl.NumberFormat('ms-MY').format(v)] *)
  NumberFormat_msMY_format : JSValue number -> completion jsstring;
  fault_message : fault -> jsstring
}.

Section JS.
Context {H : Host}.

Definition jsval := JSValue number.

(** The error object the engine throws for a fault. *)
Definition fault_error (f : fault) : js_error :=
  mk_error (fault_name f) (fault_message f).

Definition raise {A} (f : fault) : completion A := Throw (fault_error f).

Fixpoint lookup (k : jsstring) (props : list (jsstring * jsval)) : option jsval :=
  match props with
  | [] => None
  | (k', v) :: rest => if str_eqb k k' then Some v else lookup k rest
  end.

Definition has_own (k : jsstring) (props : list (jsstring * jsval)) : bool :=
  match lookup k props with Some _ => true | None => false end.

(** [ToBoolean]. *)
Definition ToBoolean (v : jsval) : bool :=
  match v with
  | VUndefined | VNull => false
  | VBool b => b
  | VNum n => negb (Number_is_falsy n)
  | VStr s => match s with [] => false | _ => true end
  | VArr _ | VObj _ => true
  end.

Definition is_nullish (v : jsval) : bool :=
  match v with VUndefined | VNull => true | _ => false end.

(** [ToString].  A parsed object inherits [Object.prototype.toString]
    unless it carries a member of that name, which JSON can only fill
    with a non-callable value: then no primitive can be produced.
    Arrays go through [Array.prototype.join]. *)
Fixpoint ToString (v : jsval) : completion jsstring :=
  match v with
  | VUndefined => Normal (lit "undefined")
  | VNull => Normal (lit "null")
  | VBool true => Normal (lit "true")
  | VBool false => Normal (lit "false")
  | VNum n => Normal (Number_toString n)
  | VStr s => Normal s
  | VObj props =>
    if has_own (lit "toString") props then raise NoPrimitive
    else Normal (lit "[object Object]")
  | VArr elems =>
    (fix join (l : list jsval) : completion jsstring :=
         match l with
         | [] => Normal []
         | x :: rest =>
             sx <- (if is_nullish x then Normal [] else ToString x) ;;
             match rest with
             | [] => Normal sx
             | _ => sr <- join rest ;; Normal (sx ++ lit "," ++ sr)
             end
         end) elems
  end.

(** Strict equality with a string, [v === s]. *)
Definition strict_eq_str (v : jsval) (s : jsstring) : bool :=
  match v with
  | VStr s' => str_eqb s' s
  | _ => false
  end.

(** [v.k] for the member names the repository reads by name ([plan],
    [answer], [total], [groups], [label], [data], [COUNT], [error]):
    no built-in prototype defines any of them, so the read is decided
    by the own properties. *)
Definition Get (v : jsval) (k : jsstring) : completion jsval :=
  match v with
  | VUndefined | VNull => raise (ReadOfNullish k)
  | VObj props =>
    Normal (match lookup k props with Some x => x | None => VUndefined end)
  | _ => Normal VUndefined
  end.

Definition index_keys {A} (l : list A) : list jsstring :=
  map (fun i => N_to_dec (N.of_nat i)) (seq 0 (length l)).

(** [Object.entries]: the own enumerable string-keyed properties, in
    the object's own property order. *)
Definition Object_entries (v : jsval) : completion (list (jsstring * jsval)) :=
  match v with
  | VUndefined | VNull => raise ToObjectOfNullish
  | VObj props => Normal props
  | VArr elems => Normal (combine (index_keys elems) elems)
  | VStr s => Normal (combine (index_keys s) (map (fun c => VStr [c]) s))
  | _ => Normal []
  end.

(** [Array.prototype.map] reached as [v.map(f)]: only arrays have it. *)
Definition call_map {B} (v : jsval) (f : jsval -> completion B) : completion (list B) :=
  match v with
  | VUndefined | VNull => raise (ReadOfNullish (lit "map"))
  | VArr elems => mapM f elems
  | _ => raise (NotAFunction (lit "map"))
  end.

(** [v.length > 0]. *)
Definition length_positive (v : jsval) : completion bool :=
  match v with
  | VUndefined | VNull => raise (ReadOfNullish (lit "length"))
  | VArr elems => Normal (negb (Nat.eqb (length elems) 0))
  | VStr s => Normal (negb (Nat.eqb (length s) 0))
  | VObj props =>
    match lookup (lit "length") props with
    | Some x => greater_than_zero x
    | None => Normal false
    end
  | _ => Normal false
  end.
End JS.

(** ** config.js *)

Module Config.
Definition API_BASE_URL : jsstring := lit "http://localhost:8000".
Definition HEALTH_CHECK_INTERVAL : N := 30000.
Definition ANIMATION_DURATION : N := 300.
Definition RETRY_ATTEMPTS : Z := 3.
Definition RETRY_DELAY : N := 1000.
End Config.

(** ** The elements the modules hold *)

(** An element made by [document.createElement]. *)
Record Element := { tagName : jsstring; className : jsstring; textContent : jsstring }.

Record Indicator := { ind_textContent : jsstring; ind_className : jsstring }.

(** Focus and scrolling belong to the layout; of [focus()] only the
    number of calls is kept. *)
Record InputEl := { value : jsstring; input_disabled : bool; focus_calls : nat }.

Record ButtonEl := { btn_innerHTML : jsstring; btn_disabled : bool }.

Record ResultsEl := { res_innerHTML : jsstring }.

(** ** utils.js *)

Module Utils.
Section Utils.
Context {H : Host}.

(** [createElement]: an absent or empty [className] or [content] is
    not applied. *)
Definition createElement (tag : jsstring) (className content : option jsstring)
    : Element :=
  {| tagName := tag;
     className := match className with Some c => c | None => [] end;
     textContent := match content with Some c => c | None => [] end |}.

(** [formatNumber]: the whole body is the host's formatter. *)
Definition formatNumber (num : jsval) : completion jsstring :=
  NumberFormat_msMY_format num.

(** The class [\w] of a regular expression without flags. *)
Definition is_word (c : code_unit) : bool :=
  (N.leb 97 c && N.leb c 122) || (N.leb 65 c && N.leb c 90)
  || (N.leb 48 c && N.leb c 57) || N.eqb c UNDERSCORE.

(** [l.toUpperCase()] for a string [l] of one code unit below 128,
    which is all [/\b\w/] can hand to the callback. *)
Definition toUpperCase1 (c : code_unit) : jsstring :=
  if N.leb 97 c && N.leb c 122 then [(c - 32)%N] else [c].

(** [s.replace(/\b\w/g, l => l.toUpperCase())].  The scan carries
    whether the code unit to the left is a word character: the
    assertion [\b] in front of a word character holds exactly when it
    is not (or there is none). *)
Fixpoint capitalize_boundaries (left_is_word : bool) (s : jsstring) : jsstring :=
  match s with
  | [] => []
  | c :: rest =>
      (if is_word c && negb left_is_word then toUpperCase1 c else [c])
      ++ capitalize_boundaries (is_word c) rest
  end.

Definition formatKey (key : jsstring) : jsstring :=
  capitalize_boundaries false (replace_unit UNDERSCORE [SPACE] key).

(** The DOM side of [escapeHtml]. Assigning [textContent] converts the
    value to a string ([undefined] and [null] give the empty string)
    and makes it the only text child of the element. *)
Definition set_textContent (v : jsval) : completion jsstring :=
  if is_nullish v then Normal [] else ToString v.

(** Reading [innerHTML] serializes the text child: the HTML fragment
    serialization escapes a text node by four successive replacements,
    of [&], U+00A0, [<] and [>] in this order (quotes are replaced in
    attribute values only, and a [div] holds no attribute here). *)
Definition serialize_text (s : jsstring) : jsstring :=
  replace_unit GT (lit "&gt;")
    (replace_unit LT (lit "&lt;")
       (replace_unit NBSP (lit "&nbsp;")
          (replace_unit AMP (lit "&amp;") s))).

Definition escapeHtml (text : jsval) : completion jsstring :=
  s <- set_textContent text ;; Normal (serialize_text s).

(** *** debounce

    Time is what the event loop says it is: a call of the debounced
    function and a look of the loop at the timers both come with the
    time at which they happen. *)

Section Debounce.
Variable A : Type.   (* what the debounced function is called with *)







End Debounce.
End Utils.
End Utils.

(** ** The network and the timers

    Requests are answered by an environment, in the order they are
    issued; every answer comes with the time it takes.  The world keeps
    the clock (in milliseconds), the requests sent and the delays
    awaited so far. *)

Inductive http_method := GET | POST.

Section Runtime.
Context {H : Host}.

Record Request := {
  req_method : http_method;
  req_url : jsstring;
  req_json : option jsval;      (* the JSON payload, before serialization *)
  req_time : N
}.

Inductive reply_kind :=
| Unreachable                                   (* fetch rejects *)
| Response (status : N) (body : option jsval).  (* [body] is [None] when it is not JSON *)

Record Reply := { took : N; kind : reply_kind }.

Record Env := {
  server : nat -> Request -> Reply;   (* the answer to the i-th request *)
  lateness : nat -> N                 (* how late the i-th awaited timer fires *)
}.

Record Wait := { wait_start : N; wait_delay : N }.

Record World := { now : N; sent : list Request; waits : list Wait }.

Definition advance (d : N) (w : World) : World :=
  {| now := (now w + d)%N; sent := sent w; waits := waits w |}.

(** [await new Promise(resolve => setTimeout(resolve, d))]. *)
Definition sleep (env : Env) (d : N) (w : World) : World :=
  {| now := (now w + d + lateness env (length (waits w)))%N;
     sent := sent w;
     waits := waits w ++ [{| wait_start := now w; wait_delay := d |}] |}.

(** The first half of [fetch]: the request leaves. *)
Definition fetch_send (env : Env) (m : http_method) (url : jsstring)
    (payload : option jsval) (w : World) : Reply * World :=
  let req := {| req_method := m; req_url := url; req_json := payload;
                req_time := now w |} in
  (server env (length (sent w)) req,
   {| now := now w; sent := sent w ++ [req]; waits := waits w |}).

(** The second half: the promise settles.  With an abort timer of
    [t] milliseconds, an answer that takes that long is cut off. *)
Definition fetch_settle (abort_after : option N) (rep : Reply) (w : World)
    : completion (N * option jsval) * World :=
  let settle :=
    (match kind rep with
     | Unreachable => raise NetworkFailure
     | Response status body => Normal (status, body)
     end, advance (took rep) w) in
  match abort_after with
  | Some t => if N.leb t (took rep) then (raise Aborted, advance t w) else settle
  | None => settle
  end.

(** [response.ok]. *)
Definition ok (status : N) : bool := N.leb 200 status && N.leb status 299.

(** [response.json()]. *)
Definition json (body : option jsval) : completion jsval :=
  match body with
  | Some v => Normal v
  | None => raise BadJson
  end.

End Runtime.

(** ** apiService.js *)

Module ApiService.
Section ApiService.
Context {H : Host}.

(** The [try] block of [checkHealth]: one request, cut off after 5000 ms. *)
Definition health_attempt (env : Env) (w : World) : completion jsval * World :=
  let '(rep, w1) :=
    fetch_send env GET (Config.API_BASE_URL ++ lit "/health") None w in
  let '(r, w2) := fetch_settle (Some 5000%N) rep w1 in
  (resp <- r ;;
   let '(status, body) := resp in
   if negb (ok status)
   then Throw (mk_error Error_ (lit "HTTP " ++ N_to_dec status))
   else json body,
   w2).

Equations? checkHealth (env : Env) (retries : Z) (w : World)
    : completion jsval * World by wf (Z.to_nat retries) lt :=
  checkHealth env retries w with health_attempt env w := {
    | (Normal v, w1) := (Normal v, w1);
    | (Throw error, w1) with Z_lt_dec 0 retries := {
        | left _ := checkHealth env (retries - 1) (sleep env Config.RETRY_DELAY w1);
        | right _ := (Throw error, w1) } }.
Proof. lia. Qed.

(** The call without an argument takes the default budget. *)
Definition checkHealth_default (env : Env) (w : World) : completion jsval * World :=
  checkHealth env Config.RETRY_ATTEMPTS w.

Definition sendQuery_send (env : Env) (query : jsval) (w : World) : Reply * World :=
  fetch_send env POST (Config.API_BASE_URL ++ lit "/ask")
    (Some (VObj [(lit "user_query", query)])) w.

Definition sendQuery_receive (rep : Reply) (w : World) : completion jsval * World :=
  let '(r, w1) := fetch_settle None rep w in
  (resp <- r ;;
   let '(status, body) := resp in
   if negb (ok status)
   then Throw (mk_error Error_ (lit "HTTP error! status: " ++ N_to_dec status))
   else
     data <- json body ;;
     err <- Get data (lit "error") ;;
     if ToBoolean err
     then (msg <- ToString err ;; Throw (mk_error Error_ msg))
     else Normal data,
   w1).

Definition sendQuery (env : Env) (query : jsval) (w : World) : completion jsval * World :=
  let '(rep, w1) := sendQuery_send env query w in
  sendQuery_receive rep w1.
End ApiService.
End ApiService.

(** ** statusManager.js *)

Module StatusManager.
Section StatusManager.
Context {H : Host}.

Record t := { indicator : option Indicator }.

(** What the member read [statusConfig[status]] finds.  [statusConfig]
    is an object literal: besides its three entries it answers to the
    members every object inherits from [Object.prototype], which are
    functions (and the prototype itself for [__proto__]). *)
Inductive config_lookup :=
| Entry (text class : jsstring)
| InheritedMember
| NoMember.

Definition object_prototype_members : list jsstring :=
  [ lit "constructor"; lit "hasOwnProperty"; lit "isPrototypeOf";
    lit "propertyIsEnumerable"; lit "toLocaleString"; lit "toString";
    lit "valueOf"; lit "__proto__"; lit "__defineGetter__";
    lit "__defineSetter__"; lit "__lookupGetter__"; lit "__lookupSetter__" ].

Definition GREEN_CIRCLE : jsstring := [55357; 57314]%N.   (* U+1F7E2 *)
Definition RED_CIRCLE : jsstring := [55357; 56628]%N.     (* U+1F534 *)
Definition YELLOW_CIRCLE : jsstring := [55357; 57313]%N.  (* U+1F7E1 *)

Definition statusConfig (status : jsstring) : config_lookup :=
  if str_eqb status (lit "online")
  then Entry (GREEN_CIRCLE ++ lit " Backend Online") (lit "status-online")
  else if str_eqb status (lit "offline")
  then Entry (RED_CIRCLE ++ lit " Backend Offline") (lit "status-offline")
  else if str_eqb status (lit "checking")
  then Entry (YELLOW_CIRCLE ++ lit " Checking...") (lit "status-checking")
  else if existsb (str_eqb status) object_prototype_members
  then InheritedMember
  else NoMember.

Definition updateStatus (status : jsstring) (sm : t) : t :=
  match indicator sm with
  | None => sm
  | Some _ =>
      match statusConfig status with
      | Entry text class =>
          {| indicator := Some {| ind_textContent := text;
                                  ind_className := lit "status-indicator " ++ class |} |}
      | InheritedMember =>
          (* a truthy [config] whose [text] and [class] are undefined:
             [textContent = undefined] empties the text and the
             template prints the word *)
          {| indicator := Some {| ind_textContent := [];
                                  ind_className := lit "status-indicator undefined" |} |}
      | NoMember => sm
      end
  end.

(** One poll, run to its end. *)
Definition checkHealth (env : Env) (sm : t) (w : World) : t * World :=
  let sm1 := updateStatus (lit "checking") sm in
  match ApiService.checkHealth_default env w with
  | (Normal _, w1) => (updateStatus (lit "online") sm1, w1)
  | (Throw _, w1) => (updateStatus (lit "offline") sm1, w1)
  end.
End StatusManager.
End StatusManager.

(** ** resultsModule.js *)

Module ResultsModule.
Section ResultsModule.
Context {H : Host}.

Record t := { container : option ResultsEl }.

Definition BAR_CHART : jsstring := [55357; 56522]%N.   (* U+1F4CA *)
Definition DIRECT_HIT : jsstring := [55356; 57263]%N.  (* U+1F3AF *)
Definition CHART_UP : jsstring := [55357; 56520]%N.    (* U+1F4C8 *)

(** The template of one search parameter. *)
Definition plan_item (key escaped : jsstring) : jsstring :=
  nl 16 ++ lit "<div class=" ++ quoted "data-item" ++ lit ">"
  ++ nl 20 ++ lit "<span>" ++ key
  ++ lit ":</span> <!-- Format the key for display -->"
  ++ nl 20 ++ lit "<span class=" ++ quoted "data-value" ++ lit ">" ++ escaped
  ++ lit "</span> <!-- Escape value for safety -->"
  ++ nl 16 ++ lit "</div>" ++ nl 12.

Definition plan_card (filteredPlan : jsstring) : jsstring :=
  nl 12 ++ lit "<div class=" ++ quoted "result-card" ++ lit ">"
  ++ nl 16 ++ lit "<div class=" ++ quoted "result-title" ++ lit ">"
  ++ DIRECT_HIT ++ lit " Parameter Carian</div>"
  ++ nl 16 ++ filteredPlan
  ++ nl 12 ++ lit "</div>" ++ nl 8.

Definition generatePlanCard (plan : jsval) : completion jsstring :=
  entries <- Object_entries plan ;;
  items <- mapM (fun '(key, value) =>
                   escaped <- Utils.escapeHtml value ;;
                   Normal (plan_item (Utils.formatKey key) escaped))
                (filter (fun '(key, value) => negb (strict_eq_str value (lit "Any")))
                        entries) ;;
  Normal (plan_card (concat items)).

(** [item[Object.keys(item)[0]]], given the entries of [item]: the
    first own member, and [undefined] when there is none. *)
Definition first_member (entries : list (jsstring * jsval)) : jsval :=
  match entries with
  | (_, v) :: _ => v
  | [] => VUndefined
  end.

Definition group_row (item : jsval) : completion jsstring :=
  entries <- Object_entries item ;;
  count <- Get item (lit "COUNT") ;;
  shown <- Utils.escapeHtml (first_member entries) ;;
  formatted <- Utils.formatNumber count ;;
  Normal (nl 24 ++ lit "<div class=" ++ quoted "data-item" ++ lit ">"
          ++ nl 28 ++ lit "<span>" ++ shown
          ++ lit "</span> <!-- Display the data item value -->"
          ++ nl 28 ++ lit "<span class=" ++ quoted "data-value" ++ lit ">"
          ++ formatted
          ++ lit "</span> <!-- Display the formatted count -->"
          ++ nl 24 ++ lit "</div>" ++ nl 20).

Definition group_block (group : jsval) : completion jsstring :=
  label <- Get group (lit "label") ;;
  title <- Utils.escapeHtml label ;;
  data <- Get group (lit "data") ;;
  rows <- call_map data group_row ;;
  Normal (nl 12 ++ lit "<div class=" ++ quoted "group-data" ++ lit ">"
          ++ nl 16 ++ lit "<div class=" ++ quoted "group-title" ++ lit ">"
          ++ title ++ lit "</div> <!-- Group label -->"
          ++ nl 16 ++ concat rows
          ++ nl 12 ++ lit "</div>" ++ nl 8).

Definition generateGroupsCard (groups : jsval) : completion jsstring :=
  blocks <- call_map groups group_block ;;
  Normal (nl 12 ++ lit "<div class=" ++ quoted "result-card" ++ lit ">"
          ++ nl 16 ++ lit "<div class=" ++ quoted "result-title" ++ lit ">"
          ++ CHART_UP ++ lit " Pecahan Data</div>"
          ++ nl 16 ++ concat blocks
          ++ nl 12 ++ lit "</div>" ++ nl 8).

Definition total_block (formatted : jsstring) : jsstring :=
  nl 16 ++ lit "<div class=" ++ quoted "total-count" ++ lit ">"
  ++ nl 20 ++ BAR_CHART ++ lit " Jumlah Keseluruhan: " ++ formatted ++ lit " orang"
  ++ nl 16 ++ lit "</div>" ++ nl 12.

(** The markup [displayResults] builds for a truthy [data]. *)
Definition results_html (data : jsval) : completion jsstring :=
  plan <- Get data (lit "plan") ;;
  answer <- Get data (lit "answer") ;;
  total <- Get answer (lit "total") ;;
  html1 <- (match total with
            | VUndefined => Normal []
            | _ => formatted <- Utils.formatNumber total ;;
                   Normal (total_block formatted)
            end) ;;
  card <- generatePlanCard plan ;;
  groups <- Get answer (lit "groups") ;;
  has_groups <- (if ToBoolean groups then length_positive groups else Normal false) ;;
  html3 <- (if has_groups : bool then generateGroupsCard groups else Normal []) ;;
  Normal (html1 ++ card ++ html3).

Definition displayResults (data : jsval) (rm : t) : completion unit * t :=
  match container rm with
  | None => (Normal tt, rm)
  | Some _ =>
      if negb (ToBoolean data) then (Normal tt, rm)
      else match results_html data with
           | Normal html =>
               (Normal tt, {| container := Some {| res_innerHTML := html |} |})
           | Throw e => (Throw e, rm)
           end
  end.
End ResultsModule.
End ResultsModule.

(** ** chatModule.js *)

Module ChatModule.
Section ChatModule.
Context {H : Host}.

Record t := {
  container : option (list Element);   (* the message elements, oldest first *)
  input : option InputEl;
  sendButton : option ButtonEl;
  isLoading : bool
}.

(** Everything a call of [sendMessage] can touch. *)
Record App := {
  chat : t;
  status : StatusManager.t;
  results : ResultsModule.t;
  world : World
}.

Definition addMessage (content sender : jsstring) (c : t) : t :=
  match container c with
  | None => c
  | Some messages =>
      let messageDiv :=
        Utils.createElement (lit "div")
          (Some (lit "message " ++ sender ++ lit "-message")) None in
      {| container :=
           Some (messages ++
                 [{| tagName := tagName messageDiv;
                     className := className messageDiv;
                     textContent := content |}]);
         input := input c; sendButton := sendButton c; isLoading := isLoading c |}
  end.

Definition setLoading (loading : bool) (c : t) : t :=
  match sendButton c, input c with
  | Some _, Some inp =>
      if loading then
        {| container := container c;
           input := Some {| value := value inp; input_disabled := true;
                            focus_calls := focus_calls inp |};
           sendButton := Some {| btn_innerHTML :=
                                   lit "<div class=" ++ quoted "loading" ++ lit "></div>";
                                 btn_disabled := true |};
           isLoading := loading |}
      else
        {| container := container c;
           input := Some {| value := value inp; input_disabled := false;
                            focus_calls := S (focus_calls inp) |};
           sendButton := Some {| btn_innerHTML := lit "Hantar"; btn_disabled := false |};
           isLoading := loading |}
  | _, _ =>
      {| container := container c; input := input c; sendButton := sendButton c;
         isLoading := loading |}
  end.

Definition clear_input (c : t) : t :=
  {| container := container c;
     input := match input c with
              | Some inp => Some {| value := []; input_disabled := input_disabled inp;
                                    focus_calls := focus_calls inp |}
              | None => None
              end;
     sendButton := sendButton c; isLoading := isLoading c |}.

Definition botMessage : jsstring :=
  lit "Saya telah menganalisis data berdasarkan pertanyaan anda. Lihat keputusan di sebelah kanan.".

(** How far a call of [sendMessage] got before it gave control back. *)
Inductive progress :=
| Returned                    (* the promise is fulfilled, nothing pending *)
| Rejected (e : js_error)     (* an exception left the function *)
| Awaiting (reply : Reply).   (* suspended on the query that was sent *)

(** [sendMessage] up to its [await]. *)
Definition sendMessage_begin (env : Env) (app : App) : App * progress :=
  let c := chat app in
  if isLoading c then (app, Returned)
  else match input c with
       | None => (app, Rejected (fault_error (ReadOfNullish (lit "value"))))
       | Some inp =>
           let message := trim (value inp) in
           match message with
           | [] => (app, Returned)
           | _ =>
               let c1 := addMessage message (lit "user") c in
               let c2 := clear_input c1 in
               let c3 := setLoading true c2 in
               let '(rep, w1) := ApiService.sendQuery_send env (VStr message) (world app) in
               ({| chat := c3; status := status app; results := results app;
                   world := w1 |}, Awaiting rep)
           end
       end.

(** The [catch] block. *)
Definition on_error (error : js_error) (app : App) : App :=
  {| chat := addMessage (lit "Maaf, terdapat ralat: " ++ message error) (lit "bot") (chat app);
     status := StatusManager.updateStatus (lit "offline") (status app);
     results := results app; world := world app |}.

(** The [finally] block. *)
Definition on_finally (app : App) : App :=
  {| chat := setLoading false (chat app); status := status app;
     results := results app; world := world app |}.

(** [sendMessage] from the moment the query settles. *)
Definition sendMessage_resume (rep : Reply) (app : App) : App :=
  let '(r, w1) := ApiService.sendQuery_receive rep (world app) in
  let app1 := {| chat := chat app; status := status app; results := results app;
                 world := w1 |} in
  on_finally
    match r with
    | Normal data =>
        match ResultsModule.displayResults data (results app1) with
        | (Normal _, rm) =>
            {| chat := addMessage botMessage (lit "bot") (chat app1);
               status := status app1; results := rm; world := w1 |}
        | (Throw error, rm) =>
            on_error error {| chat := chat app1; status := status app1;
                              results := rm; world := w1 |}
        end
    | Throw error => on_error error app1
    end.

(** A call run to its end with nothing else happening in between. *)
Definition sendMessage (env : Env) (app : App) : App * progress :=
  match sendMessage_begin env app with
  | (app1, Awaiting rep) => (sendMessage_resume rep app1, Returned)
  | stopped => stopped
  end.

(** [handleKeyPress] for an event whose key is [key]. *)
Definition handleKeyPress (env : Env) (key : jsstring) (app : App) : App * progress :=
  if str_eqb key (lit "Enter") && negb (isLoading (chat app))
  then sendMessage env app
  else (app, Returned).
End ChatModule.
End ChatModule.

(** ** A host to run the model on

    Integers stand for the numbers: enough to evaluate the modules on
    counts and on text. *)

Definition Z_to_dec (z : Z) : jsstring :=
  if Z.ltb z 0 then lit "-" ++ N_to_dec (Z.abs_N z) else N_to_dec (Z.abs_N z).

(** Digits from the least significant one, a comma after every third. *)
Fixpoint group3 (i : nat) (rev_digits : jsstring) : jsstring :=
  match rev_digits with
  | [] => []
  | d :: rest =>
      (if Nat.ltb 0 i && Nat.eqb (Nat.modulo i 3) 0 then [44%N; d] else [d])
      ++ group3 (S i) rest
  end.

Definition Z_grouped (z : Z) : jsstring :=
  (if Z.ltb z 0 then lit "-" else [])
  ++ rev (group3 0 (rev (N_to_dec (Z.abs_N z)))).

#[local] Instance IntegerHost : Host := {|
  number := Z;
  Number_toString := Z_to_dec;
  Number_is_falsy := Z.eqb 0;
  greater_than_zero := fun v =>
    match v with
    | VNum z => Normal (Z.ltb 0 z)
    | VBool b => Normal b
    | _ => Normal false
    end;
  NumberFormat_msMY_format := fun v =>
    match v with
    | VNum z => Normal (Z_grouped z)
    | _ => Normal (lit "NaN")
    end;
  fault_message := fun f =>
    match f with
    | ReadOfNullish k => lit "Cannot read properties of undefined (reading '" ++ k ++ lit "')"
    | NotAFunction k => k ++ lit " is not a function"
    | ToObjectOfNullish => lit "Cannot convert undefined or null to object"
    | NoPrimitive => lit "Cannot convert object to primitive value"
    | BadJson => lit "Unexpected token in JSON"
    | NetworkFailure => lit "Failed to fetch"
    | Aborted => lit "The user aborted a request."
    end
|}.

(** * The vocabulary of the properties *)

(** What the escaping does to one code unit. *)
Definition escape_unit (c : code_unit) : jsstring :=
  if N.eqb c AMP then lit "&amp;"
  else if N.eqb c NBSP then lit "&nbsp;"
  else if N.eqb c LT then lit "&lt;"
  else if N.eqb c GT then lit "&gt;"
  else [c].

Definition is_special (c : code_unit) : bool :=
  N.eqb c AMP || N.eqb c NBSP || N.eqb c LT || N.eqb c GT.

Definition needs_escape (s : jsstring) : bool := existsb is_special s.

Definition mem (c : code_unit) (s : jsstring) : bool := existsb (N.eqb c) s.

Definition count_unit (c : code_unit) (s : jsstring) : nat :=
  length (filter (N.eqb c) s).

(** Every ampersand opens one of the four entities. *)
Fixpoint entities_only (s : jsstring) : bool :=
  match s with
  | [] => true
  | c :: rest =>
      (if N.eqb c AMP
       then starts_with (lit "amp;") rest || starts_with (lit "nbsp;") rest
            || starts_with (lit "lt;") rest || starts_with (lit "gt;") rest
       else true)
      && entities_only rest
  end.

(** Letters and digits: the characters that make up a word once the
    underscores are gone. *)
Definition is_alnum (c : code_unit) : bool :=
  (N.leb 97 c && N.leb c 122) || (N.leb 65 c && N.leb c 90)
  || (N.leb 48 c && N.leb c 57).

Definition upper (c : code_unit) : code_unit :=
  if N.leb 97 c && N.leb c 122 then (c - 32)%N else c.

(** Position [i] opens a word of [key]: nothing, or something that is
    neither a letter nor a digit, stands to its left. *)
Definition starts_word (key : jsstring) (i : nat) : bool :=
  match i with
  | 0 => true
  | S j => match nth_error key j with
           | Some p => negb (is_alnum p)
           | None => true
           end
  end.

(** The code unit [formatKey] is to show at position [i], where [key]
    has [c]. *)
Definition humanized (key : jsstring) (i : nat) (c : code_unit) : code_unit :=
  if N.eqb c UNDERSCORE then SPACE
  else if is_alnum c && starts_word key i then upper c
  else c.

Definition unscore (c : code_unit) : code_unit :=
  if N.eqb c UNDERSCORE then SPACE else c.

Definition left_flag (left : bool) (s : jsstring) (i : nat) : bool :=
  match i with
  | 0 => left
  | S j => match nth_error s j with
           | Some p => Utils.is_word p
           | None => false
           end
  end.

(** The search parameters as the specification words them: go through
    the plan in its own order, skip the entries that say ["Any"], show
    every other one as its humanized key with its escaped value. *)
Fixpoint parameters_block `{H : Host} (plan : list (jsstring * jsval))
    : completion jsstring :=
  match plan with
  | [] => Normal []
  | (key, value) :: rest =>
      if strict_eq_str value (lit "Any") then parameters_block rest
      else
        escaped <- Utils.escapeHtml value ;;
        others <- parameters_block rest ;;
        Normal (ResultsModule.plan_item (Utils.formatKey key) escaped ++ others)
  end.

(** The response carries a member of that name. *)
Definition has_member `{H : Host} (data : jsval) (k : jsstring) : bool :=
  match data with
  | VObj props => has_own k props
  | _ => false
  end.

(** A plan whose values are all text. *)
Definition text_plan `{H : Host} (entries : list (jsstring * jsstring)) : jsval :=
  VObj (map (fun '(key, text) => (key, VStr text)) entries).

Definition specified (entries : list (jsstring * jsstring))
    : list (jsstring * jsstring) :=
  filter (fun '(key, text) => negb (str_eqb text (lit "Any"))) entries.

Definition shown_parameter (entry : jsstring * jsstring) : jsstring :=
  ResultsModule.plan_item (Utils.formatKey (fst entry))
                          (flat_map escape_unit (snd entry)).

(** The markup of one search parameter and of the card around them,
    as the page is to hold them. *)
Definition parameter_markup (label shown : jsstring) : jsstring :=
  nl 16 ++ lit "<div class=" ++ quoted "data-item" ++ lit ">"
  ++ nl 20 ++ lit "<span>" ++ label
  ++ lit ":</span> <!-- Format the key for display -->"
  ++ nl 20 ++ lit "<span class=" ++ quoted "data-value" ++ lit ">" ++ shown
  ++ lit "</span> <!-- Escape value for safety -->"
  ++ nl 16 ++ lit "</div>" ++ nl 12.

Definition parameters_card (parameters : jsstring) : jsstring :=
  nl 12 ++ lit "<div class=" ++ quoted "result-card" ++ lit ">"
  ++ nl 16 ++ lit "<div class=" ++ quoted "result-title" ++ lit ">"
  ++ [55356; 57263]%N ++ lit " Parameter Carian</div>"
  ++ nl 16 ++ parameters
  ++ nl 12 ++ lit "</div>" ++ nl 8.

(** The values a plan holds that are not structured: text, numbers,
    flags and [null]. *)
Inductive plain_value `{H : Host} :=
| Text (s : jsstring)
| Num (n : number)
| Flag (b : bool)
| Nothing.

Definition plain_json `{H : Host} (p : plain_value) : jsval :=
  match p with
  | Text s => VStr s
  | Num n => VNum n
  | Flag b => VBool b
  | Nothing => VNull
  end.

(** The text a plain value stands for in the page. *)
Definition plain_text `{H : Host} (p : plain_value) : jsstring :=
  match p with
  | Text s => s
  | Num n => Number_toString n
  | Flag true => lit "true"
  | Flag false => lit "false"
  | Nothing => []
  end.

(** Only the text ["Any"] says that a parameter was not specified. *)
Definition is_any `{H : Host} (p : plain_value) : bool :=
  match p with
  | Text s => str_eqb s (lit "Any")
  | _ => false
  end.

Definition plain_plan `{H : Host} (entries : list (jsstring * plain_value)) : jsval :=
  VObj (map (fun e => (fst e, plain_json (snd e))) entries).

Definition displayed `{H : Host} (entries : list (jsstring * plain_value))
    : list (jsstring * plain_value) :=
  filter (fun e => negb (is_any (snd e))) entries.

Definition displayed_parameter `{H : Host} (e : jsstring * plain_value) : jsstring :=
  parameter_markup (Utils.formatKey (fst e)) (flat_map escape_unit (plain_text (snd e))).

(** Position [i] of [key] is its first one or follows an underscore. *)
Definition after_underscore (key : jsstring) (i : nat) : bool :=
  match i with
  | 0 => true
  | S j => match nth_error key j with
           | Some p => N.eqb p UNDERSCORE
           | None => true
           end
  end.

(** What a key written in letters, digits and underscores is to show
    at position [i], where it has [c]. *)
Definition snake_humanized (key : jsstring) (i : nat) (c : code_unit) : code_unit :=
  if N.eqb c UNDERSCORE then SPACE
  else if after_underscore key i then upper c
  else c.

(** The names every object answers to besides its own members: those
    of [Object.prototype]. *)
Definition inherited_names : list jsstring :=
  [ lit "constructor"; lit "hasOwnProperty"; lit "isPrototypeOf";
    lit "propertyIsEnumerable"; lit "toLocaleString"; lit "toString";
    lit "valueOf"; lit "__proto__"; lit "__defineGetter__";
    lit "__defineSetter__"; lit "__lookupGetter__"; lit "__lookupSetter__" ].

(** What the indicator shows for the three statuses. *)
Definition status_entries : list Indicator :=
  [ {| ind_textContent := [55357; 57314]%N ++ lit " Backend Online";
       ind_className := lit "status-indicator status-online" |};
    {| ind_textContent := [55357; 56628]%N ++ lit " Backend Offline";
       ind_className := lit "status-indicator status-offline" |};
    {| ind_textContent := [55357; 57313]%N ++ lit " Checking...";
       ind_className := lit "status-indicator status-checking" |} ].

Definition health_request `{H : Host} (time : N) : Request :=
  {| req_method := GET; req_url := Config.API_BASE_URL ++ lit "/health";
     req_json := None; req_time := time |}.

(** The answers that make one health attempt fail: too late for the
    abort timer, no answer at all, a status outside 200..299, or a body
    that is not JSON. *)
Definition attempt_fails `{H : Host} (rep : Reply) : bool :=
  N.leb 5000 (took rep)
  || match kind rep with
     | Unreachable => true
     | Response status body =>
         negb (ok status) || match body with None => true | Some _ => false end
     end.



Definition query_request `{H : Host} (query : jsval) (time : N) : Request :=
  {| req_method := POST; req_url := Config.API_BASE_URL ++ lit "/ask";
     req_json := Some (VObj [(lit "user_query", query)]); req_time := time |}.


(** An environment that gives every request the same answer, on time. *)
Definition constant_env `{H : Host} (rep : Reply) : Env :=
  {| server := fun _ _ => rep; lateness := fun _ => 0%N |}.

Definition initial_world `{H : Host} : World :=
  {| now := 0%N; sent := []; waits := [] |}.

Definition online_indicator : Indicator :=
  {| ind_textContent := StatusManager.GREEN_CIRCLE ++ lit " Backend Online";
     ind_className := lit "status-indicator status-online" |}.

Definition down_env : Env := constant_env {| took := 30%N; kind := Unreachable |}.

Definition sample_response : jsval :=
  VObj [(lit "plan", VObj [(lit "gender", VStr (lit "Male")); (lit "state", VStr (lit "Any"))]);
        (lit "answer",
         VObj [(lit "total", VNum 15000%Z);
               (lit "groups",
                VArr [VObj [(lit "label", VStr (lit "By State"));
                            (lit "data",
                             VArr [VObj [(lit "state", VStr (lit "Selangor"));
                                         (lit "COUNT", VNum 9000%Z)]])]])])].

Definition answering_env : Env :=
  constant_env {| took := 20%N; kind := Response 200 (Some sample_response) |}.

Definition sample_chat (text : jsstring) (busy : bool) : ChatModule.t :=
  {| ChatModule.container := Some [];
     ChatModule.input :=
       Some {| value := text; input_disabled := busy; focus_calls := 0 |};
     ChatModule.sendButton :=
       Some {| btn_innerHTML := lit "Hantar"; btn_disabled := busy |};
     ChatModule.isLoading := busy |}.

Definition sample_results : ResultsModule.t :=
  {| ResultsModule.container := Some {| res_innerHTML := lit "earlier" |} |}.

Definition sample_app (text : jsstring) (busy : bool) : ChatModule.App :=
  {| ChatModule.chat := sample_chat text busy;
     ChatModule.status := {| StatusManager.indicator := Some online_indicator |};
     ChatModule.results := sample_results;
     ChatModule.world := initial_world |}.


(** ** Vocabulary of the further properties *)

(** An environment whose first [k] answers are failures and whose later
    answers are [rep]. *)
Definition flaky_env `{H : Host} (k : nat) (rep : Reply) : Env :=
  {| server := fun i _ => if Nat.ltb i k
                          then {| took := 30%N; kind := Unreachable |}
                          else rep;
     lateness := fun _ => 0%N |}.

Definition offline_indicator : Indicator :=
  {| ind_textContent := StatusManager.RED_CIRCLE ++ lit " Backend Offline";
     ind_className := lit "status-indicator status-offline" |}.

Definition user_message (text : jsstring) : Element :=
  {| tagName := lit "div"; className := lit "message user-message";
     textContent := text |}.

Definition bot_message (text : jsstring) : Element :=
  {| tagName := lit "div"; className := lit "message bot-message";
     textContent := text |}.

(** The chat panel at the moment the query leaves. *)
Definition awaiting_chat `{H : Host} (text : jsstring) (c : ChatModule.t) : ChatModule.t :=
  ChatModule.setLoading true
    (ChatModule.clear_input (ChatModule.addMessage text (lit "user") c)).

(** The state in which a call that sent [text] finds everything when the
    query has settled with [r] and the world is [w]. *)
Definition settled `{H : Host} (text : jsstring) (r : completion jsval) (w : World)
    (app : ChatModule.App) : ChatModule.App :=
  let waiting :=
    {| ChatModule.chat := awaiting_chat text (ChatModule.chat app);
       ChatModule.status := ChatModule.status app;
       ChatModule.results := ChatModule.results app;
       ChatModule.world := w |} in
  ChatModule.on_finally
    match r with
    | Normal data =>
        match ResultsModule.displayResults data (ChatModule.results app) with
        | (Normal _, rm) =>
            {| ChatModule.chat :=
                 ChatModule.addMessage ChatModule.botMessage (lit "bot")
                   (awaiting_chat text (ChatModule.chat app));
               ChatModule.status := ChatModule.status app;
               ChatModule.results := rm; ChatModule.world := w |}
        | (Throw error, rm) =>
            ChatModule.on_error error
              {| ChatModule.chat := awaiting_chat text (ChatModule.chat app);
                 ChatModule.status := ChatModule.status app;
                 ChatModule.results := rm; ChatModule.world := w |}
        end
    | Throw error => ChatModule.on_error error waiting
    end.

(** Decoding the four entities [escapeHtml] writes; [skip] code units
    of an entity just decoded are still to be passed over. *)
Fixpoint unescape_from (skip : nat) (s : jsstring) : jsstring :=
  match s with
  | [] => []
  | c :: rest =>
      match skip with
      | S k => unescape_from k rest
      | 0 =>
          if N.eqb c AMP then
            if starts_with (lit "amp;") rest then AMP :: unescape_from 4 rest
            else if starts_with (lit "nbsp;") rest then NBSP :: unescape_from 5 rest
            else if starts_with (lit "lt;") rest then LT :: unescape_from 3 rest
            else if starts_with (lit "gt;") rest then GT :: unescape_from 3 rest
            else c :: unescape_from 0 rest
          else c :: unescape_from 0 rest
      end
  end.

Definition unescape (s : jsstring) : jsstring := unescape_from 0 s.

(** A response made of a plan and an answer. *)
Definition response_of `{H : Host} (plan : jsval) (answer : list (jsstring * jsval))
    : jsval :=
  VObj [(lit "plan", plan); (lit "answer", VObj answer)].

(** The templates of the breakdown card. *)
Definition row_markup (shown formatted : jsstring) : jsstring :=
  nl 24 ++ lit "<div class=" ++ quoted "data-item" ++ lit ">"
  ++ nl 28 ++ lit "<span>" ++ shown
  ++ lit "</span> <!-- Display the data item value -->"
  ++ nl 28 ++ lit "<span class=" ++ quoted "data-value" ++ lit ">"
  ++ formatted
  ++ lit "</span> <!-- Display the formatted count -->"
  ++ nl 24 ++ lit "</div>" ++ nl 20.

Definition block_markup (title rows : jsstring) : jsstring :=
  nl 12 ++ lit "<div class=" ++ quoted "group-data" ++ lit ">"
  ++ nl 16 ++ lit "<div class=" ++ quoted "group-title" ++ lit ">"
  ++ title ++ lit "</div> <!-- Group label -->"
  ++ nl 16 ++ rows
  ++ nl 12 ++ lit "</div>" ++ nl 8.

Definition groups_card (blocks : jsstring) : jsstring :=
  nl 12 ++ lit "<div class=" ++ quoted "result-card" ++ lit ">"
  ++ nl 16 ++ lit "<div class=" ++ quoted "result-title" ++ lit ">"
  ++ ResultsModule.CHART_UP ++ lit " Pecahan Data</div>"
  ++ nl 16 ++ blocks
  ++ nl 12 ++ lit "</div>" ++ nl 8.

(** A breakdown as the backend sends it: groups of rows, each row a
    field with its text and a count. *)
Record Row `{H : Host} := { row_field : jsstring; row_text : jsstring; row_count : number }.

Record Group `{H : Host} := { group_label : jsstring; group_rows : list Row }.

Definition row_value `{H : Host} (r : Row) : jsval :=
  VObj [(row_field r, VStr (row_text r)); (lit "COUNT", VNum (row_count r))].

Definition group_value `{H : Host} (g : Group) : jsval :=
  VObj [(lit "label", VStr (group_label g));
        (lit "data", VArr (map row_value (group_rows g)))].

Definition shown_row `{H : Host} (fmt : number -> jsstring) (r : Row) : jsstring :=
  row_markup (flat_map escape_unit (row_text r)) (fmt (row_count r)).

Definition shown_group `{H : Host} (fmt : number -> jsstring) (g : Group) : jsstring :=
  block_markup (flat_map escape_unit (group_label g))
               (concat (map (shown_row fmt) (group_rows g))).

Definition is_letter (c : code_unit) : bool :=
  (N.leb 97 c && N.leb c 122) || (N.leb 65 c && N.leb c 90).

Section DebounceVocabulary.
Variable A : Type.






End DebounceVocabulary.

(** A backend that answers with a plan and no answer. *)
Definition incomplete_env : Env :=
  constant_env {| took := 20%N; kind := Response 200 (Some (VObj [(lit "plan", VObj [])])) |}.

Definition sample_input : InputEl :=
  {| value := lit " berapa orang "; input_disabled := false; focus_calls := 0 |}.

(** * Properties *)

(** ** Strings *)

Lemma str_eqb_refl (s : jsstring) : str_eqb s s = true.
Proof.
  induction s as [|c s IH]; simpl; [reflexivity|].
  now rewrite N.eqb_refl, IH.
Qed.

Lemma str_eqb_eq (a b : jsstring) : str_eqb a b = true <-> a = b.
Proof.
  split; [|intros ->; apply str_eqb_refl].
  revert b; induction a as [|x a IH]; intros [|y b]; simpl; try discriminate; auto.
  intros E. apply andb_true_iff in E as [E1 E2].
  apply N.eqb_eq in E1. apply IH in E2. congruence.
Qed.

Lemma str_eqb_neq (a b : jsstring) : str_eqb a b = false <-> a <> b.
Proof.
  rewrite <- str_eqb_eq. destruct (str_eqb a b); split; congruence.
Qed.

Lemma replace_unit_app (c : code_unit) (r a b : jsstring) :
  replace_unit c r (a ++ b) = replace_unit c r a ++ replace_unit c r b.
Proof. apply flat_map_app. Qed.

Lemma replace_unit_cons (c x : code_unit) (r s : jsstring) :
  replace_unit c r (x :: s) = (if N.eqb x c then r else [x]) ++ replace_unit c r s.
Proof. reflexivity. Qed.

(** ** utils.js: escapeHtml *)

Ltac case_unit c :=
  unfold escape_unit, is_special;
  destruct (N.eqb_spec c AMP) as [->|?]; [reflexivity|];
  destruct (N.eqb_spec c NBSP) as [->|?]; [reflexivity|];
  destruct (N.eqb_spec c LT) as [->|?]; [reflexivity|];
  destruct (N.eqb_spec c GT) as [->|?]; [reflexivity|].

Lemma serialize_text_cons (c : code_unit) (s : jsstring) :
  Utils.serialize_text (c :: s) = escape_unit c ++ Utils.serialize_text s.
Proof.
  unfold Utils.serialize_text.
  rewrite (replace_unit_cons AMP c), !replace_unit_app. f_equal.
  case_unit c.
  apply N.eqb_neq in n0, n1, n2.
  unfold replace_unit. cbn. rewrite n0. cbn. rewrite n1. cbn. now rewrite n2.
Qed.

Lemma serialize_text_pointwise (s : jsstring) :
  Utils.serialize_text s = flat_map escape_unit s.
Proof.
  induction s as [|c s IH]; [reflexivity|].
  rewrite serialize_text_cons, IH. reflexivity.
Qed.

Lemma escapeHtml_string `{H : Host} (s : jsstring) :
  Utils.escapeHtml (VStr s) = Normal (flat_map escape_unit s).
Proof.
  unfold Utils.escapeHtml, Utils.set_textContent; simpl.
  now rewrite serialize_text_pointwise.
Qed.

Lemma mem_app (c : code_unit) (a b : jsstring) : mem c (a ++ b) = mem c a || mem c b.
Proof. apply existsb_app. Qed.

Lemma escaped_has_no (c : code_unit) (s : jsstring) :
  is_special c = true -> c <> AMP -> mem c (flat_map escape_unit s) = false.
Proof.
  intros Hc Hamp. induction s as [|x s IH]; [reflexivity|].
  simpl. rewrite mem_app, IH, orb_false_r.
  unfold is_special in Hc.
  repeat (apply orb_true_iff in Hc as [Hc|Hc]); apply N.eqb_eq in Hc; subst c;
    try congruence; clear Hamp;
    unfold escape_unit;
    repeat match goal with
           | |- context [N.eqb x ?k] => destruct (N.eqb_spec x k) as [->|?]
           end; try reflexivity;
    unfold mem; cbn [existsb]; rewrite orb_false_r; apply N.eqb_neq; congruence.
Qed.

Lemma count_unit_app (c : code_unit) (a b : jsstring) :
  count_unit c (a ++ b) = count_unit c a + count_unit c b.
Proof. unfold count_unit. now rewrite filter_app, length_app. Qed.

Lemma escaped_keeps (c : code_unit) (s : jsstring) :
  is_special c = false -> mem c (lit "ampnbsltg;") = false ->
  count_unit c (flat_map escape_unit s) = count_unit c s.
Proof.
  intros Hc Hl. induction s as [|x s IH]; [reflexivity|].
  simpl flat_map.
  rewrite count_unit_app, IH, (count_unit_app c [x] s : count_unit c (x :: s) = _).
  f_equal.
  unfold is_special in Hc.
  repeat (apply orb_false_iff in Hc as [Hc ?]).
  cbn in Hl. repeat (apply orb_false_iff in Hl as [? Hl]).
  unfold escape_unit.
  repeat match goal with
         | |- context [N.eqb x ?k] => destruct (N.eqb_spec x k) as [->|?]
         end; try reflexivity;
    unfold count_unit, AMP, NBSP, LT, GT in *; cbn;
    repeat match goal with
           | E : N.eqb c _ = false |- _ => rewrite E; clear E
           end; reflexivity.
Qed.

Lemma entities_only_escaped (s : jsstring) : entities_only (flat_map escape_unit s) = true.
Proof.
  induction s as [|x s IH]; [reflexivity|].
  simpl flat_map. unfold escape_unit.
  repeat match goal with
         | |- context [N.eqb x ?k] => destruct (N.eqb_spec x k) as [->|?]
         end; try (cbn; exact IH).
  cbn [app entities_only]. apply N.eqb_neq in n. rewrite n. exact IH.
Qed.

Lemma escaped_length (s : jsstring) :
  length s <= length (flat_map escape_unit s)
  /\ (needs_escape s = true -> length s < length (flat_map escape_unit s)).
Proof.
  induction s as [|x s [IH1 IH2]]; [split; [auto|discriminate]|].
  simpl flat_map. rewrite length_app. cbn [length needs_escape existsb].
  assert (Hx : 1 <= length (escape_unit x)
               /\ (is_special x = true -> 2 <= length (escape_unit x))).
  { unfold escape_unit, is_special.
    repeat match goal with
           | |- context [N.eqb x ?k] => destruct (N.eqb_spec x k) as [->|?]
           end; cbn; split; (lia || discriminate). }
  destruct Hx as [Hx1 Hx2]. split; [lia|].
  intros E. apply orb_true_iff in E as [E|E].
  - specialize (Hx2 E). lia.
  - specialize (IH2 E). lia.
Qed.

Lemma escaped_fixed (s : jsstring) :
  needs_escape s = false -> flat_map escape_unit s = s.
Proof.
  induction s as [|x s IH]; [reflexivity|].
  cbn [needs_escape existsb]. intros E. apply orb_false_iff in E as [Ex Es].
  simpl flat_map. rewrite (IH Es). clear IH Es.
  unfold is_special in Ex. unfold escape_unit.
  destruct (N.eqb x AMP); [discriminate|].
  destruct (N.eqb x NBSP); [discriminate|].
  destruct (N.eqb x LT); [discriminate|].
  destruct (N.eqb x GT); [discriminate|]. reflexivity.
Qed.

Lemma needs_escape_escaped (s : jsstring) :
  needs_escape (flat_map escape_unit s) = needs_escape s.
Proof.
  induction s as [|x s IH]; [reflexivity|].
  simpl flat_map. unfold needs_escape in *. rewrite existsb_app, IH.
  cbn [existsb]. f_equal. case_unit x.
  cbn. apply N.eqb_neq in n, n0, n1, n2. now rewrite n, n0, n1, n2.
Qed.

(** C1 (as amended).  For every input string, [escapeHtml] returns the
    string in which every occurrence of [&], [<] and [>] (and of U+00A0)
    is replaced by its entity: the result holds no literal [<] or [>]
    and every ampersand in it opens an entity, while the two quote
    characters are kept as they are.  In particular
    [escapeHtml("<script>")] is ["&lt;script&gt;"]. *)
Theorem escapeHtml_escapes_markup `{H : Host} (s : jsstring) :
  Utils.escapeHtml (VStr s) = Normal (flat_map escape_unit s)
  /\ mem LT (flat_map escape_unit s) = false
  /\ mem GT (flat_map escape_unit s) = false
  /\ mem NBSP (flat_map escape_unit s) = false
  /\ entities_only (flat_map escape_unit s) = true
  /\ count_unit DQUOTE (flat_map escape_unit s) = count_unit DQUOTE s
  /\ count_unit SQUOTE (flat_map escape_unit s) = count_unit SQUOTE s
  /\ Utils.escapeHtml (VStr (lit "<script>")) = Normal (lit "&lt;script&gt;").
Proof.
  repeat split.
  - apply escapeHtml_string.
  - apply escaped_has_no; [reflexivity|discriminate].
  - apply escaped_has_no; [reflexivity|discriminate].
  - apply escaped_has_no; [reflexivity|discriminate].
  - apply entities_only_escaped.
  - apply escaped_keeps; reflexivity.
  - apply escaped_keeps; reflexivity.
Qed.

(** C1 as stated fails: the two quote characters come back literally. *)
Lemma escapeHtml_quotes_counterexample :
  Utils.escapeHtml (VStr [DQUOTE; SQUOTE]) = Normal [DQUOTE; SQUOTE]
  /\ ~ (forall s : jsstring, exists out,
          Utils.escapeHtml (VStr s) = Normal out
          /\ mem DQUOTE out = false /\ mem SQUOTE out = false).
Proof.
  split; [reflexivity|].
  intros C. destruct (C [DQUOTE; SQUOTE]) as (out & E & D & _).
  cbv in E. injection E as <-. discriminate D.
Qed.

(** C5 (as amended).  [escapeHtml] escapes once per call and does not
    recognise text that is already escaped: applied to the result of an
    earlier call it returns that result unchanged exactly when the
    original string held none of [&], [<], [>] and U+00A0, and escapes
    it once more otherwise. *)
Theorem escapeHtml_again `{H : Host} (s : jsstring) :
  exists once twice,
    Utils.escapeHtml (VStr s) = Normal once
    /\ Utils.escapeHtml (VStr once) = Normal twice
    /\ str_eqb twice once = negb (needs_escape s).
Proof.
  exists (flat_map escape_unit s), (flat_map escape_unit (flat_map escape_unit s)).
  rewrite !escapeHtml_string. repeat split.
  destruct (needs_escape s) eqn:E; cbn [negb].
  - apply str_eqb_neq. intros Eq.
    pose proof (proj2 (escaped_length (flat_map escape_unit s))) as L.
    rewrite needs_escape_escaped, Eq in L. specialize (L E). lia.
  - apply str_eqb_eq. now rewrite !(escaped_fixed s E).
Qed.

(** C5 as stated fails: the result of escaping ["&"] is escaped again. *)
Lemma escapeHtml_twice_counterexample :
  Utils.escapeHtml (VStr (lit "&")) = Normal (lit "&amp;")
  /\ Utils.escapeHtml (VStr (lit "&amp;")) = Normal (lit "&amp;amp;")
  /\ Utils.escapeHtml (VStr (lit "&amp;")) <> Normal (lit "&amp;").
Proof. repeat split. discriminate. Qed.

(** ** utils.js: formatKey *)

Lemma replace_underscores (key : jsstring) :
  replace_unit UNDERSCORE [SPACE] key = map unscore key.
Proof.
  induction key as [|c key IH]; [reflexivity|].
  rewrite replace_unit_cons, IH. unfold unscore. cbn [map].
  now destruct (N.eqb c UNDERSCORE).
Qed.

Lemma toUpperCase1_upper (c : code_unit) : Utils.toUpperCase1 c = [upper c].
Proof. unfold Utils.toUpperCase1, upper. now destruct (_ && _). Qed.

Lemma capitalize_boundaries_nth (s : jsstring) :
  forall (left : bool) (i : nat),
    nth_error (Utils.capitalize_boundaries left s) i
    = option_map (fun c => if Utils.is_word c && negb (left_flag left s i)
                           then upper c else c)
                 (nth_error s i).
Proof.
  induction s as [|c s IH]; intros left i.
  - now destruct i.
  - cbn [Utils.capitalize_boundaries]. rewrite toUpperCase1_upper.
    assert (E : forall a b : code_unit, forall t : jsstring,
               (if Utils.is_word c && negb left then [a] else [b]) ++ t
               = (if Utils.is_word c && negb left then a else b) :: t)
      by (intros; now destruct (_ && _)).
    rewrite E. destruct i as [|j]; [reflexivity|].
    cbn [nth_error]. rewrite IH. destruct j; reflexivity.
Qed.

Lemma is_word_unscore (c : code_unit) : Utils.is_word (unscore c) = is_alnum c.
Proof.
  unfold unscore. destruct (N.eqb_spec c UNDERSCORE) as [->|n]; [reflexivity|].
  unfold Utils.is_word, is_alnum. apply N.eqb_neq in n. rewrite n.
  apply orb_false_r.
Qed.

Lemma starts_word_snake (key : jsstring) (i : nat) :
  forallb Utils.is_word key = true -> starts_word key i = after_underscore key i.
Proof.
  intros W. destruct i as [|j]; [reflexivity|]. cbn [starts_word after_underscore].
  destruct (nth_error key j) as [p|] eqn:E; [|reflexivity].
  rewrite forallb_forall in W. specialize (W p (nth_error_In _ _ E)).
  revert W. unfold Utils.is_word, is_alnum.
  destruct (N.eqb_spec p UNDERSCORE) as [->|n]; [reflexivity|].
  rewrite orb_false_r. now intros ->.
Qed.

(** C8 (as amended).  [formatKey] keeps the length of the key; it shows
    a space for every underscore, the capital of the first character of
    every maximal run of ASCII letters and digits (the words [\b\w]
    delimits once the underscores are spaces: an apostrophe, a hyphen
    or a letter outside ASCII ends a run), and every other character
    as it is.  For a key written in ASCII letters, digits and
    underscores these are the first characters of the words the
    underscores separate.
    [formatKey("age_group")] is ["Age Group"] and [formatKey("state")]
    is ["State"]. *)
Theorem formatKey_spec (key : jsstring) :
  length (Utils.formatKey key) = length key
  /\ (forall i : nat,
        nth_error (Utils.formatKey key) i
        = option_map (humanized key i) (nth_error key i))
  /\ Utils.formatKey (lit "age_group") = lit "Age Group"
  /\ Utils.formatKey (lit "state") = lit "State"
  /\ (forallb Utils.is_word key = true ->
      forall i : nat,
        nth_error (Utils.formatKey key) i
        = option_map (snake_humanized key i) (nth_error key i)).
Proof.
  assert (P : forall i : nat,
             nth_error (Utils.formatKey key) i
             = option_map (humanized key i) (nth_error key i)).
  { intros i. unfold Utils.formatKey.
    rewrite replace_underscores, capitalize_boundaries_nth, nth_error_map.
    destruct (nth_error key i) as [c|] eqn:Ec; [|reflexivity].
    cbn [option_map]. f_equal. rewrite is_word_unscore.
    assert (F : negb (left_flag false (map unscore key) i) = starts_word key i).
    { destruct i as [|j]; [reflexivity|]. cbn [left_flag starts_word].
      rewrite nth_error_map. destruct (nth_error key j); [|reflexivity].
      cbn [option_map]. now rewrite is_word_unscore. }
    rewrite F. unfold humanized, unscore.
    destruct (N.eqb_spec c UNDERSCORE) as [->|n]; reflexivity. }
  split; [|split; [exact P|split; [reflexivity|split; [reflexivity|]]]].
  - clear - P. revert P. generalize (Utils.formatKey key) as out.
    intros out P.
    destruct (Nat.lt_trichotomy (length out) (length key)) as [L|[L|L]]; [|exact L|].
    + specialize (P (length out)).
      rewrite (proj2 (nth_error_None out (length out)) (le_n _)) in P.
      destruct (nth_error key (length out)) eqn:E; [discriminate|].
      apply nth_error_None in E. lia.
    + specialize (P (length key)).
      rewrite (proj2 (nth_error_None key (length key)) (le_n _)) in P.
      apply nth_error_None in P. lia.
  - intros W i. rewrite P.
    destruct (nth_error key i) as [c|] eqn:E; [|reflexivity].
    cbn [option_map]. f_equal. unfold humanized, snake_humanized.
    rewrite (starts_word_snake key i W).
    rewrite forallb_forall in W. specialize (W c (nth_error_In _ _ E)).
    revert W. unfold Utils.is_word, is_alnum.
    destruct (N.eqb c UNDERSCORE); [reflexivity|].
    rewrite orb_false_r. now intros ->.
Qed.

Lemma formatKey_spec_witness :
  forallb Utils.is_word (lit "age_group") = true
  /\ nth_error (Utils.formatKey (lit "age_group")) 4
     = option_map (snake_humanized (lit "age_group") 4)
                  (nth_error (lit "age_group") 4).
Proof.
  split; [reflexivity|].
  exact (proj2 (proj2 (proj2 (proj2 (formatKey_spec (lit "age_group"))))) eq_refl 4).
Defined.

(** C8 as stated fails: in [don't_stop] the letter after the apostrophe
    is capitalized although it is not the first of its word, and so is
    the letter after the accented one in [U+00E9 lan_vital]; the words
    of the key are not the units whose first letter is capitalized. *)
Lemma formatKey_word_counterexample :
  Utils.formatKey (lit "don't_stop") = lit "Don'T Stop"
  /\ Utils.formatKey (lit "don't_stop") <> lit "Don't Stop"
  /\ Utils.formatKey (233%N :: lit "lan_vital") = 233%N :: lit "Lan Vital"
  /\ ~ (forall (key : jsstring) (i : nat),
          nth_error (Utils.formatKey key) i
          = option_map (snake_humanized key i) (nth_error key i)).
Proof.
  split; [reflexivity|]. split; [discriminate|]. split; [reflexivity|].
  intros C. specialize (C (lit "don't_stop") 4). discriminate C.
Qed.

(** ** resultsModule.js *)

Lemma filter_map_block `{H : Host} (plan : list (jsstring * jsval)) :
  (items <- mapM (fun '(key, value) =>
                    escaped <- Utils.escapeHtml value ;;
                    Normal (ResultsModule.plan_item (Utils.formatKey key) escaped))
                 (filter (fun '(key, value) => negb (strict_eq_str value (lit "Any")))
                         plan) ;;
   Normal (concat items))
  = parameters_block plan.
Proof.
  induction plan as [|[key value] rest IH]; [reflexivity|].
  cbn [filter parameters_block].
  destruct (strict_eq_str value (lit "Any")); cbn [negb]; [exact IH|].
  cbn [mapM bind]. destruct (Utils.escapeHtml value) as [escaped|e]; [|reflexivity].
  cbn [bind]. rewrite <- IH.
  destruct (mapM _ _) as [items|e]; reflexivity.
Qed.

Lemma generatePlanCard_block `{H : Host} (plan : list (jsstring * jsval)) :
  ResultsModule.generatePlanCard (VObj plan)
  = (block <- parameters_block plan ;; Normal (ResultsModule.plan_card block)).
Proof.
  rewrite <- filter_map_block.
  unfold ResultsModule.generatePlanCard. cbn [Object_entries bind].
  destruct (mapM _ _) as [items|e]; reflexivity.
Qed.

Lemma parameters_block_text `{H : Host} (entries : list (jsstring * jsstring)) :
  parameters_block (map (fun '(key, text) => (key, VStr text)) entries)
  = Normal (concat (map shown_parameter (specified entries))).
Proof.
  induction entries as [|[key text] rest IH]; [reflexivity|].
  cbn [map parameters_block specified filter strict_eq_str].
  destruct (str_eqb text (lit "Any")); cbn [negb]; [exact IH|].
  rewrite escapeHtml_string, IH. reflexivity.
Qed.

Lemma plan_item_markup (key escaped : jsstring) :
  ResultsModule.plan_item key escaped = parameter_markup key escaped.
Proof. reflexivity. Qed.

Lemma plan_card_markup (block : jsstring) :
  ResultsModule.plan_card block = parameters_card block.
Proof. reflexivity. Qed.

Lemma escapeHtml_plain `{H : Host} (p : plain_value) :
  Utils.escapeHtml (plain_json p) = Normal (flat_map escape_unit (plain_text p)).
Proof.
  destruct p as [s|n|[|]|]; unfold Utils.escapeHtml, Utils.set_textContent;
    cbn [plain_json plain_text is_nullish ToString bind];
    now rewrite serialize_text_pointwise.
Qed.

Lemma parameters_block_plain `{H : Host} (entries : list (jsstring * plain_value)) :
  parameters_block (map (fun e => (fst e, plain_json (snd e))) entries)
  = Normal (concat (map displayed_parameter (displayed entries))).
Proof.
  induction entries as [|[key p] rest IH]; [reflexivity|].
  cbn [map parameters_block displayed filter fst snd].
  assert (A : strict_eq_str (plain_json p) (lit "Any") = is_any p)
    by (destruct p; reflexivity).
  rewrite A. destruct (is_any p); cbn [negb]; [exact IH|].
  rewrite escapeHtml_plain, IH. cbn [bind map concat].
  unfold displayed_parameter at 1. cbn [fst snd].
  now rewrite plan_item_markup.
Qed.

(** C6.  For every plan the search-parameters card holds, in the
    plan's own order, exactly the entries whose value is not the string
    ["Any"], each as its humanized key with its escaped value (and the
    card is not built when a value cannot be turned into text); for a
    plan of text values this is the list of the specified entries, and
    for a plan of texts, numbers, flags and [null] the card is the
    written-out markup of the displayed entries, each with the label
    and the escaped text of its value.  The card of
    [{gender: "Male", state: "Any"}] holds the one entry
    [Gender: Male] and nothing of [state]. *)
Theorem generatePlanCard_entries `{H : Host} :
  (forall plan : list (jsstring * jsval),
      ResultsModule.generatePlanCard (VObj plan)
      = (block <- parameters_block plan ;; Normal (ResultsModule.plan_card block)))
  /\ (forall entries : list (jsstring * jsstring),
        ResultsModule.generatePlanCard (text_plan entries)
        = Normal (ResultsModule.plan_card
                    (concat (map shown_parameter (specified entries)))))
  /\ ResultsModule.generatePlanCard
       (text_plan [(lit "gender", lit "Male"); (lit "state", lit "Any")])
     = Normal (ResultsModule.plan_card
                 (ResultsModule.plan_item (lit "Gender") (lit "Male")))
  /\ includes (ResultsModule.plan_card
                 (ResultsModule.plan_item (lit "Gender") (lit "Male")))
              (lit "Gender:") = true
  /\ includes (ResultsModule.plan_card
                 (ResultsModule.plan_item (lit "Gender") (lit "Male")))
              (lit "State") = false
  /\ includes (ResultsModule.plan_card
                 (ResultsModule.plan_item (lit "Gender") (lit "Male")))
              (lit "state") = false
  /\ (forall entries : list (jsstring * plain_value),
        ResultsModule.generatePlanCard (plain_plan entries)
        = Normal (parameters_card
                    (concat (map displayed_parameter (displayed entries)))))
  /\ ResultsModule.generatePlanCard
       (text_plan [(lit "gender", lit "Male"); (lit "state", lit "Any")])
     = Normal (parameters_card (parameter_markup (lit "Gender") (lit "Male")))
  /\ occurrences (quoted "data-item")
       (parameters_card (parameter_markup (lit "Gender") (lit "Male"))) = 1
  /\ includes (parameters_card (parameter_markup (lit "Gender") (lit "Male")))
              (lit "<span>Gender:</span>") = true
  /\ includes (parameters_card (parameter_markup (lit "Gender") (lit "Male")))
              (lit "<span class=" ++ quoted "data-value" ++ lit ">Male</span>") = true
  /\ includes (parameters_card (parameter_markup (lit "Gender") (lit "Male")))
              (lit "State") = false
  /\ includes (parameters_card (parameter_markup (lit "Gender") (lit "Male")))
              (lit "state") = false
  /\ includes (parameters_card (parameter_markup (lit "Gender") (lit "Male")))
              (lit "Any") = false.
Proof.
  assert (E : ResultsModule.generatePlanCard
                (text_plan [(lit "gender", lit "Male"); (lit "state", lit "Any")])
              = Normal (ResultsModule.plan_card
                          (ResultsModule.plan_item (lit "Gender") (lit "Male")))).
  { unfold text_plan.
    rewrite generatePlanCard_block, parameters_block_text. reflexivity. }
  split; [exact generatePlanCard_block|].
  split; [|split; [exact E|]].
  - intros entries. unfold text_plan.
    now rewrite generatePlanCard_block, parameters_block_text.
  - split; [reflexivity|]. split; [reflexivity|]. split; [reflexivity|].
    split; [|split; [|repeat split]].
    + intros entries. unfold plain_plan.
      rewrite generatePlanCard_block, parameters_block_plain. cbn [bind].
      now rewrite plan_card_markup.
    + rewrite E. now rewrite plan_card_markup, plan_item_markup.
Qed.

Lemma generatePlanCard_undefined `{H : Host} :
  ResultsModule.generatePlanCard VUndefined = Throw (fault_error ToObjectOfNullish).
Proof. reflexivity. Qed.

Lemma Get_missing `{H : Host} (data : jsval) (k : jsstring) :
  ToBoolean data = true -> has_member data k = false ->
  Get data k = Normal VUndefined.
Proof.
  destruct data; cbn; try discriminate; try reflexivity.
  unfold has_own. intros _. now destruct (lookup k props).
Qed.

Lemma results_html_without_answer `{H : Host} (data : jsval) :
  ToBoolean data = true -> has_member data (lit "answer") = false ->
  ResultsModule.results_html data = Throw (fault_error (ReadOfNullish (lit "total"))).
Proof.
  intros T A. unfold ResultsModule.results_html.
  rewrite (Get_missing data (lit "answer") T A).
  destruct (Get data (lit "plan")) as [plan|e] eqn:P; [reflexivity|].
  destruct data; discriminate.
Qed.

Lemma results_html_without_plan `{H : Host} (data : jsval) :
  ToBoolean data = true -> has_member data (lit "plan") = false ->
  exists e, ResultsModule.results_html data = Throw e.
Proof.
  intros T P. unfold ResultsModule.results_html.
  rewrite (Get_missing data (lit "plan") T P). cbn [bind].
  destruct (Get data (lit "answer")) as [answer|e]; cbn [bind]; [|now exists e].
  destruct (Get answer (lit "total")) as [total|e]; cbn [bind]; [|now exists e].
  match goal with
  | |- exists e, bind ?c _ = _ => destruct c as [html1|e]
  end; cbn [bind]; [|now exists e].
  rewrite generatePlanCard_undefined. cbn [bind]. eauto.
Qed.

(** C9.  With an output surface attached, a response that is present
    but has no [answer] member makes [displayResults] raise the error
    of reading [total] off [undefined], and one without a [plan] member
    makes it raise as well; in both cases the surface keeps what it
    showed.  The call is a no-op only without a surface or for an
    absent (falsy) response. *)
Theorem displayResults_missing_member `{H : Host} (el : ResultsEl) (data : jsval) :
  let rm := {| ResultsModule.container := Some el |} in
  (ToBoolean data = true -> has_member data (lit "answer") = false ->
     ResultsModule.displayResults data rm
     = (Throw (fault_error (ReadOfNullish (lit "total"))), rm))
  /\ (ToBoolean data = true -> has_member data (lit "plan") = false ->
        exists e, ResultsModule.displayResults data rm = (Throw e, rm))
  /\ ResultsModule.displayResults data {| ResultsModule.container := None |}
     = (Normal tt, {| ResultsModule.container := None |})
  /\ (ToBoolean data = false ->
        ResultsModule.displayResults data rm = (Normal tt, rm)).
Proof.
  intros rm. split; [|split; [|split; [reflexivity|]]].
  - intros T A. unfold ResultsModule.displayResults.
    cbn [ResultsModule.container rm]. rewrite T. cbn [negb].
    now rewrite (results_html_without_answer data T A).
  - intros T P. destruct (results_html_without_plan data T P) as [e E].
    exists e. unfold ResultsModule.displayResults.
    cbn [ResultsModule.container rm]. rewrite T. cbn [negb]. now rewrite E.
  - intros F. unfold ResultsModule.displayResults.
    cbn [ResultsModule.container rm]. now rewrite F.
Qed.

(** ** apiService.js: checkHealth *)

Lemma checkHealth_unfold `{H : Host} (env : Env) (retries : Z) (w : World) :
  ApiService.checkHealth env retries w
  = match ApiService.health_attempt env w with
    | (Normal v, w1) => (Normal v, w1)
    | (Throw error, w1) =>
        if Z.ltb 0 retries
        then ApiService.checkHealth env (retries - 1) (sleep env Config.RETRY_DELAY w1)
        else (Throw error, w1)
    end.
Proof.
  simp checkHealth.
  destruct (ApiService.health_attempt env w) as [[v|e] w1]; cbn; [reflexivity|].
  destruct (Z_lt_dec 0 retries); cbn; destruct (Z.ltb_spec 0 retries);
    (lia || reflexivity).
Qed.

Lemma health_attempt_world `{H : Host} (env : Env) (w : World) :
  sent (snd (ApiService.health_attempt env w)) = sent w ++ [health_request (now w)]
  /\ waits (snd (ApiService.health_attempt env w)) = waits w
  /\ (now w <= now (snd (ApiService.health_attempt env w)))%N.
Proof.
  unfold ApiService.health_attempt, fetch_send, fetch_settle, advance.
  cbn [fst snd]. destruct (N.leb 5000 _); cbn; repeat split; lia.
Qed.

Lemma health_attempt_throws `{H : Host} (env : Env) (w : World) :
  attempt_fails (server env (length (sent w)) (health_request (now w))) = true ->
  exists e, fst (ApiService.health_attempt env w) = Throw e.
Proof.
  unfold attempt_fails, ApiService.health_attempt, fetch_send, fetch_settle,
    health_request, json, raise.
  cbn [fst snd].
  destruct (N.leb 5000 _); cbn; [eauto|].
  destruct (kind _) as [|status body]; cbn; [eauto|].
  destruct (ok status); cbn; [|eauto].
  destruct body; cbn; [discriminate|eauto].
Qed.




(** ** apiService.js: sendQuery *)





(** A success response whose body is not JSON raises as well. *)
Lemma sendQuery_unparsable `{H : Host} (env : Env) (query : jsval) (w : World)
    (t status : N) :
  server env (length (sent w)) (query_request query (now w))
  = {| took := t; kind := Response status None |} ->
  is_throw (fst (ApiService.sendQuery env query w)) = true.
Proof.
  intros E.
  unfold ApiService.sendQuery, ApiService.sendQuery_send, fetch_send,
    ApiService.sendQuery_receive, fetch_settle.
  fold (query_request query (now w)). rewrite E. cbn.
  destruct (ok status); reflexivity.
Qed.

(** Exactly one request leaves, whatever comes back. *)
Lemma sendQuery_one_request `{H : Host} (env : Env) (query : jsval) (w : World) :
  sent (snd (ApiService.sendQuery env query w))
  = sent w ++ [query_request query (now w)].
Proof. reflexivity. Qed.

(** ** statusManager.js *)

Lemma updateStatus_detached (status : jsstring) :
  StatusManager.updateStatus status {| StatusManager.indicator := None |}
  = {| StatusManager.indicator := None |}.
Proof. reflexivity. Qed.

Lemma updateStatus_no_member (status : jsstring) (sm : StatusManager.t) :
  StatusManager.statusConfig status = StatusManager.NoMember ->
  StatusManager.updateStatus status sm = sm.
Proof.
  intros E. unfold StatusManager.updateStatus. rewrite E.
  now destruct (StatusManager.indicator sm).
Qed.

(** C10 (as amended).  For every status that names no member of the
    status table, neither one of its three entries nor a name every
    object inherits (such as [constructor] or [toString]),
    [updateStatus] leaves the indicator, text and class, exactly as it
    was; with no indicator attached it changes nothing for any status;
    and for every status that is not an inherited name the indicator
    afterwards is the one before or shows one of the three entries. *)
Theorem updateStatus_unknown_status (status : jsstring) (sm : StatusManager.t) :
  (existsb (str_eqb status) [lit "online"; lit "offline"; lit "checking"] = false ->
   existsb (str_eqb status) inherited_names = false ->
   StatusManager.updateStatus status sm = sm)
  /\ (StatusManager.indicator sm = None -> StatusManager.updateStatus status sm = sm)
  /\ (existsb (str_eqb status) inherited_names = false ->
      StatusManager.indicator (StatusManager.updateStatus status sm)
      = StatusManager.indicator sm
      \/ In (StatusManager.indicator (StatusManager.updateStatus status sm))
            (map Some status_entries)).
Proof.
  split; [|split].
  - intros T M. apply updateStatus_no_member.
    unfold StatusManager.statusConfig. cbn [existsb] in T.
    destruct (str_eqb status (lit "online")); [discriminate|].
    destruct (str_eqb status (lit "offline")); [discriminate|].
    destruct (str_eqb status (lit "checking")); [discriminate|].
    change StatusManager.object_prototype_members with inherited_names.
    now rewrite M.
  - intros D. unfold StatusManager.updateStatus. now rewrite D.
  - intros M. destruct sm as [[ind|]]; [|now left].
    unfold StatusManager.updateStatus, StatusManager.statusConfig.
    cbn [StatusManager.indicator].
    change StatusManager.object_prototype_members with inherited_names.
    rewrite M.
    destruct (str_eqb status (lit "online")); [right; left; reflexivity|].
    destruct (str_eqb status (lit "offline")); [right; right; left; reflexivity|].
    destruct (str_eqb status (lit "checking"));
      [right; right; right; left; reflexivity|].
    now left.
Qed.

Lemma updateStatus_unknown_status_witness :
  StatusManager.updateStatus (lit "busy")
    {| StatusManager.indicator := Some online_indicator |}
  = {| StatusManager.indicator := Some online_indicator |}.
Proof.
  exact (proj1 (updateStatus_unknown_status (lit "busy")
                  {| StatusManager.indicator := Some online_indicator |})
               eq_refl eq_refl).
Defined.

(** C10 as stated fails: ["constructor"] is none of the three
    statuses, yet an indicator that shows the online entry is left with
    an empty text and the class ["status-indicator undefined"]; the
    same happens for every member name objects inherit. *)
Theorem updateStatus_inherited_member :
  existsb (str_eqb (lit "constructor")) [lit "online"; lit "offline"; lit "checking"]
  = false
  /\ StatusManager.updateStatus (lit "constructor")
       {| StatusManager.indicator := Some online_indicator |}
     = {| StatusManager.indicator :=
            Some {| ind_textContent := [];
                    ind_className := lit "status-indicator undefined" |} |}
  /\ Forall (fun status =>
               StatusManager.updateStatus status
                 {| StatusManager.indicator := Some online_indicator |}
               = {| StatusManager.indicator :=
                      Some {| ind_textContent := [];
                              ind_className := lit "status-indicator undefined" |} |})
            StatusManager.object_prototype_members
  /\ ~ (forall (status : jsstring) (sm : StatusManager.t),
          existsb (str_eqb status) [lit "online"; lit "offline"; lit "checking"]
          = false ->
          StatusManager.updateStatus status sm = sm).
Proof.
  split; [reflexivity|]. split; [reflexivity|]. split; [repeat constructor|].
  intros C.
  specialize (C (lit "constructor")
                {| StatusManager.indicator := Some online_indicator |} eq_refl).
  discriminate C.
Qed.

(** ** chatModule.js *)

Lemma setLoading_flag `{H : Host} (loading : bool) (c : ChatModule.t) :
  ChatModule.isLoading (ChatModule.setLoading loading c) = loading.
Proof.
  unfold ChatModule.setLoading.
  destruct (ChatModule.sendButton c), (ChatModule.input c), loading; reflexivity.
Qed.

Lemma sendMessage_begin_busy `{H : Host} (env : Env) (app : ChatModule.App) :
  ChatModule.isLoading (ChatModule.chat app) = true ->
  ChatModule.sendMessage_begin env app = (app, ChatModule.Returned).
Proof. intros B. unfold ChatModule.sendMessage_begin. now rewrite B. Qed.

Lemma sendMessage_begin_awaiting `{H : Host} (env : Env) (app app1 : ChatModule.App)
    (rep : Reply) :
  ChatModule.sendMessage_begin env app = (app1, ChatModule.Awaiting rep) ->
  ChatModule.isLoading (ChatModule.chat app) = false
  /\ ChatModule.isLoading (ChatModule.chat app1) = true
  /\ sent (ChatModule.world app1)
     = sent (ChatModule.world app)
       ++ [query_request
             (VStr (match ChatModule.input (ChatModule.chat app) with
                    | Some inp => trim (value inp)
                    | None => []
                    end))
             (now (ChatModule.world app))].
Proof.
  unfold ChatModule.sendMessage_begin.
  destruct (ChatModule.isLoading (ChatModule.chat app)); [discriminate|].
  destruct (ChatModule.input (ChatModule.chat app)) as [inp|]; [|discriminate].
  destruct (trim (value inp)) as [|c m] eqn:T; [discriminate|].
  intros E. injection E as <- _. cbn [ChatModule.chat ChatModule.world].
  rewrite setLoading_flag. auto.
Qed.

Lemma sendMessage_resume_idle `{H : Host} (rep : Reply) (app : ChatModule.App) :
  ChatModule.isLoading (ChatModule.chat (ChatModule.sendMessage_resume rep app)) = false.
Proof.
  unfold ChatModule.sendMessage_resume.
  destruct (ApiService.sendQuery_receive rep (ChatModule.world app)) as [r w1].
  unfold ChatModule.on_finally. cbn [ChatModule.chat]. apply setLoading_flag.
Qed.

(** C3.  While the busy flag is set a call of [sendMessage] returns at
    once and leaves everything as it was: no message, no request.  A
    call that sends its query holds the flag while the query is out, and
    whatever the query brings back, success or failure, the flag is
    down again when the call finishes. *)
Theorem sendMessage_busy_flag `{H : Host} (env : Env) (app : ChatModule.App)
    (rep : Reply) :
  (ChatModule.isLoading (ChatModule.chat app) = true ->
     ChatModule.sendMessage_begin env app = (app, ChatModule.Returned)
     /\ ChatModule.sendMessage env app = (app, ChatModule.Returned))
  /\ (forall (app1 : ChatModule.App) (sent_reply : Reply),
        ChatModule.sendMessage_begin env app = (app1, ChatModule.Awaiting sent_reply) ->
        ChatModule.isLoading (ChatModule.chat app1) = true
        /\ ChatModule.isLoading
             (ChatModule.chat (ChatModule.sendMessage_resume sent_reply app1)) = false)
  /\ ChatModule.isLoading (ChatModule.chat (ChatModule.sendMessage_resume rep app))
     = false
  /\ (ChatModule.isLoading (ChatModule.chat app) = false ->
      ChatModule.isLoading (ChatModule.chat (fst (ChatModule.sendMessage env app)))
      = false).
Proof.
  split; [|split; [|split]].
  - intros B. unfold ChatModule.sendMessage.
    now rewrite (sendMessage_begin_busy env app B).
  - intros app1 sent_reply E. split.
    + apply (sendMessage_begin_awaiting env app E).
    + apply sendMessage_resume_idle.
  - apply sendMessage_resume_idle.
  - intros I. unfold ChatModule.sendMessage.
    destruct (ChatModule.sendMessage_begin env app) as [app1 p] eqn:E.
    destruct p as [| e | sent_reply]; cbn [fst].
    + unfold ChatModule.sendMessage_begin in E. rewrite I in E.
      destruct (ChatModule.input (ChatModule.chat app)) as [inp|]; [|discriminate].
      destruct (trim (value inp)); [|discriminate]. now injection E as <-.
    + unfold ChatModule.sendMessage_begin in E. rewrite I in E.
      destruct (ChatModule.input (ChatModule.chat app)) as [inp|];
        [|now injection E as <- _].
      destruct (trim (value inp)); discriminate.
    + apply sendMessage_resume_idle.
Qed.

(** C7.  When the text of the input trims to the empty string,
    [sendMessage] returns with the whole state as it found it: no
    message is added, the input is not cleared, nothing is sent. *)
Theorem sendMessage_blank_input `{H : Host} (env : Env) (app : ChatModule.App)
    (inp : InputEl) :
  ChatModule.input (ChatModule.chat app) = Some inp ->
  trim (value inp) = [] ->
  ChatModule.sendMessage_begin env app = (app, ChatModule.Returned)
  /\ ChatModule.sendMessage env app = (app, ChatModule.Returned).
Proof.
  intros I T.
  assert (B : ChatModule.sendMessage_begin env app = (app, ChatModule.Returned)).
  { unfold ChatModule.sendMessage_begin. rewrite I, T.
    now destruct (ChatModule.isLoading (ChatModule.chat app)). }
  split; [exact B|]. unfold ChatModule.sendMessage. now rewrite B.
Qed.

(** ** The properties at concrete inputs *)


Lemma displayResults_missing_member_witness :
  ResultsModule.displayResults (VObj [(lit "plan", VObj [])]) sample_results
  = (Throw (fault_error (ReadOfNullish (lit "total"))), sample_results)
  /\ (exists e,
         ResultsModule.displayResults (VObj [(lit "answer", VObj [])]) sample_results
         = (Throw e, sample_results))
  /\ ResultsModule.displayResults VNull sample_results = (Normal tt, sample_results).
Proof.
  split; [|split].
  - exact (proj1 (displayResults_missing_member
                    {| res_innerHTML := lit "earlier" |}
                    (VObj [(lit "plan", VObj [])])) eq_refl eq_refl).
  - exact (proj1 (proj2 (displayResults_missing_member
                           {| res_innerHTML := lit "earlier" |}
                           (VObj [(lit "answer", VObj [])]))) eq_refl eq_refl).
  - exact (proj2 (proj2 (proj2 (displayResults_missing_member
                                  {| res_innerHTML := lit "earlier" |} VNull)))
             eq_refl).
Defined.

Lemma sendMessage_busy_flag_witness :
  ChatModule.sendMessage answering_env (sample_app (lit "berapa orang") true)
  = (sample_app (lit "berapa orang") true, ChatModule.Returned)
  /\ ChatModule.isLoading
       (ChatModule.chat
          (fst (ChatModule.sendMessage answering_env
                  (sample_app (lit "berapa orang") false)))) = false
  /\ ChatModule.isLoading
       (ChatModule.chat
          (fst (ChatModule.sendMessage down_env
                  (sample_app (lit "berapa orang") false)))) = false.
Proof.
  split; [|split].
  - exact (proj2 (proj1 (sendMessage_busy_flag answering_env
                           (sample_app (lit "berapa orang") true)
                           {| took := 0%N; kind := Unreachable |}) eq_refl)).
  - exact (proj2 (proj2 (proj2 (sendMessage_busy_flag answering_env
                                  (sample_app (lit "berapa orang") false)
                                  {| took := 0%N; kind := Unreachable |}))) eq_refl).
  - exact (proj2 (proj2 (proj2 (sendMessage_busy_flag down_env
                                  (sample_app (lit "berapa orang") false)
                                  {| took := 0%N; kind := Unreachable |}))) eq_refl).
Defined.

Lemma sendMessage_blank_input_witness :
  trim [32; 9; 160; 32]%N = []
  /\ ChatModule.sendMessage answering_env (sample_app [32; 9; 160; 32]%N false)
     = (sample_app [32; 9; 160; 32]%N false, ChatModule.Returned).
Proof.
  split; [reflexivity|].
  exact (proj2 (sendMessage_blank_input answering_env
                  (sample_app [32; 9; 160; 32]%N false) eq_refl eq_refl)).
Defined.

(** * Further properties *)

(** ** apiService.js *)

Lemma health_attempt_returns `{H : Host} (env : Env) (w : World)
    (t status : N) (v : jsval) :
  server env (length (sent w)) (health_request (now w))
  = {| took := t; kind := Response status (Some v) |} ->
  (t < 5000)%N -> ok status = true ->
  fst (ApiService.health_attempt env w) = Normal v.
Proof.
  intros E T O.
  unfold ApiService.health_attempt, fetch_send, fetch_settle.
  fold (health_request (now w)). rewrite E. cbn.
  destruct (N.leb_spec 5000 t); [lia|]. cbn. now rewrite O.
Qed.


(** X2.  When the first [k] attempts fail, the next one is answered in
    time with a success status and a JSON body, and the budget is at
    least [k], [checkHealth] returns that body after [k + 1] requests
    and [k] delays. *)
Theorem checkHealth_recovers `{H : Host} (env : Env) (k : nat) :
  forall (retries : Z) (w : World) (t status : N) (v : jsval),
    (Z.of_nat k <= retries)%Z ->
    (forall i req, i < k ->
       attempt_fails (server env (length (sent w) + i) req) = true) ->
    (forall req, server env (length (sent w) + k) req
                 = {| took := t; kind := Response status (Some v) |}) ->
    (t < 5000)%N -> ok status = true ->
    fst (ApiService.checkHealth env retries w) = Normal v
    /\ length (sent (snd (ApiService.checkHealth env retries w)))
       = length (sent w) + S k
    /\ length (waits (snd (ApiService.checkHealth env retries w)))
       = length (waits w) + k.
Proof.
  induction k as [|k IH]; intros retries w t status v B F Hs T O;
    rewrite checkHealth_unfold;
    destruct (health_attempt_world env w) as (S1 & W1 & _).
  - pose proof (@health_attempt_returns _ env w t status v) as R.
    rewrite <- (Nat.add_0_r (length (sent w))) in R at 1.
    specialize (R (Hs _) T O).
    destruct (ApiService.health_attempt env w) as [r w1]. cbn [fst snd] in *.
    subst r. cbn [fst snd]. rewrite S1, W1, length_app. cbn [length].
    repeat split; lia.
  - destruct (health_attempt_throws env w) as [e E].
    { rewrite <- (Nat.add_0_r (length (sent w))). apply F. lia. }
    destruct (ApiService.health_attempt env w) as [r w1]. cbn [fst snd] in *.
    subst r.
    replace (Z.ltb 0 retries) with true by (symmetry; apply Z.ltb_lt; lia).
    destruct (IH (retries - 1)%Z (sleep env Config.RETRY_DELAY w1) t status v)
      as (R & L1 & L2); try assumption; try lia.
    + intros i req Hi. cbn [sleep sent]. rewrite S1, length_app. cbn [length].
      replace (length (sent w) + 1 + i) with (length (sent w) + S i) by lia.
      apply F. lia.
    + intros req. cbn [sleep sent]. rewrite S1, length_app. cbn [length].
      replace (length (sent w) + 1 + k) with (length (sent w) + S k) by lia.
      apply Hs.
    + rewrite R, L1, L2. cbn [sleep sent waits].
      rewrite S1, W1, !length_app. cbn [length]. repeat split; lia.
Qed.

Lemma checkHealth_recovers_witness :
  fst (ApiService.checkHealth_default
         (flaky_env 2 {| took := 40%N;
                         kind := Response 200 (Some (VObj [(lit "status", VStr (lit "ok"))])) |})
         initial_world)
  = Normal (VObj [(lit "status", VStr (lit "ok"))]).
Proof.
  apply (@checkHealth_recovers _
           (flaky_env 2 {| took := 40%N;
                           kind := Response 200
                                     (Some (VObj [(lit "status", VStr (lit "ok"))])) |})
           2 Config.RETRY_ATTEMPTS initial_world 40%N 200%N).
  - vm_compute. discriminate.
  - intros i req Hi. cbn.
    destruct i as [|[|i]]; [reflexivity|reflexivity|].
    exfalso. apply (Nat.nlt_0_r i). now apply Nat.succ_lt_mono, Nat.succ_lt_mono.
  - intros req. reflexivity.
  - reflexivity.
  - reflexivity.
Defined.

(** X3.  The error [checkHealth] throws is the one of its last attempt. *)
Theorem checkHealth_last_error `{H : Host} (env : Env) (retries : Z) (w : World)
    (e : js_error) :
  fst (ApiService.checkHealth env retries w) = Throw e ->
  exists last : World,
    ApiService.health_attempt env last
    = (Throw e, snd (ApiService.checkHealth env retries w))
    /\ length (sent last) + 1
       = length (sent (snd (ApiService.checkHealth env retries w))).
Proof.
  funelim (ApiService.checkHealth env retries w); cbn [fst snd]; intros R.
  - discriminate.
  - match goal with
    | IH : forall e, _ -> exists _, _ |- _ => exact (IH e R)
    end.
  - injection R as ->. exists w. split; [assumption|].
    match goal with
    | E : ApiService.health_attempt ?env ?w = _ |- _ =>
        pose proof (proj1 (health_attempt_world env w)) as S1; rewrite E in S1
    end.
    cbn [snd] in S1. rewrite S1, length_app. reflexivity.
Qed.

Lemma checkHealth_last_error_witness :
  exists last : World,
    fst (ApiService.health_attempt down_env last)
    = Throw (fault_error NetworkFailure)
    /\ length (sent last) = 3.
Proof.
  destruct (@checkHealth_last_error _ down_env Config.RETRY_ATTEMPTS initial_world
              (fault_error NetworkFailure) eq_refl) as (last & A & L).
  exists last. split.
  - now rewrite A.
  - apply Nat.add_cancel_r with (p := 1). rewrite L. reflexivity.
Defined.

(** X4.  [sendQuery] waits for the answer however long it takes; it
    throws the engine's network error when the server cannot be
    reached, the HTTP error for a failing status whatever the body, the
    parse error for a success status with a body that is not JSON, and
    the error of reading [error] off [null] for the body [null]. *)
Theorem sendQuery_failures `{H : Host} (env : Env) (query : jsval) (w : World) :
  now (snd (ApiService.sendQuery env query w))
  = (now w + took (server env (length (sent w)) (query_request query (now w))))%N
  /\ (kind (server env (length (sent w)) (query_request query (now w))) = Unreachable ->
      fst (ApiService.sendQuery env query w) = Throw (fault_error NetworkFailure))
  /\ (forall (status : N) (body : option jsval),
        kind (server env (length (sent w)) (query_request query (now w)))
        = Response status body ->
        ok status = false ->
        fst (ApiService.sendQuery env query w)
        = Throw (mk_error Error_ (lit "HTTP error! status: " ++ N_to_dec status)))
  /\ (forall status : N,
        kind (server env (length (sent w)) (query_request query (now w)))
        = Response status None ->
        ok status = true ->
        fst (ApiService.sendQuery env query w) = Throw (fault_error BadJson))
  /\ (forall status : N,
        kind (server env (length (sent w)) (query_request query (now w)))
        = Response status (Some VNull) ->
        ok status = true ->
        fst (ApiService.sendQuery env query w)
        = Throw (fault_error (ReadOfNullish (lit "error")))).
Proof.
  unfold ApiService.sendQuery, ApiService.sendQuery_send, fetch_send,
    ApiService.sendQuery_receive, fetch_settle.
  fold (query_request query (now w)). cbn [fst snd advance now].
  split; [reflexivity|].
  split; [now intros ->|].
  split; [intros status body -> O; cbn; now rewrite O|].
  split; intros status -> O; cbn; now rewrite O.
Qed.

Lemma sendQuery_failures_witness :
  fst (ApiService.sendQuery down_env (VStr (lit "berapa orang")) initial_world)
  = Throw (fault_error NetworkFailure)
  /\ fst (ApiService.sendQuery
            (constant_env {| took := 9000%N; kind := Response 503 None |})
            (VStr (lit "berapa orang")) initial_world)
     = Throw (mk_error Error_ (lit "HTTP error! status: 503"))
  /\ fst (ApiService.sendQuery
            (constant_env {| took := 9000%N; kind := Response 200 None |})
            (VStr (lit "berapa orang")) initial_world)
     = Throw (fault_error BadJson)
  /\ fst (ApiService.sendQuery
            (constant_env {| took := 9000%N; kind := Response 200 (Some VNull) |})
            (VStr (lit "berapa orang")) initial_world)
     = Throw (fault_error (ReadOfNullish (lit "error"))).
Proof.
  split; [|split; [|split]].
  - exact (proj1 (proj2 (@sendQuery_failures _ down_env
                           (VStr (lit "berapa orang")) initial_world)) eq_refl).
  - exact (proj1 (proj2 (proj2 (@sendQuery_failures _
                           (constant_env {| took := 9000%N; kind := Response 503 None |})
                           (VStr (lit "berapa orang")) initial_world)))
             503%N None eq_refl eq_refl).
  - exact (proj1 (proj2 (proj2 (proj2 (@sendQuery_failures _
                           (constant_env {| took := 9000%N; kind := Response 200 None |})
                           (VStr (lit "berapa orang")) initial_world))))
             200%N eq_refl eq_refl).
  - exact (proj2 (proj2 (proj2 (proj2 (@sendQuery_failures _
                           (constant_env {| took := 9000%N;
                                            kind := Response 200 (Some VNull) |})
                           (VStr (lit "berapa orang")) initial_world))))
             200%N eq_refl eq_refl).
Defined.

(** ** statusManager.js and chatModule.js *)

(** X5.  A poll of the status manager does the health check with the
    default budget and leaves an attached indicator on the online entry
    when the check returned and on the offline entry when it threw,
    whatever it showed before; without an indicator only the requests
    happen. *)
Theorem poll_outcome `{H : Host} (env : Env) (sm : StatusManager.t) (w : World) :
  StatusManager.checkHealth env sm w
  = ({| StatusManager.indicator :=
          option_map (fun _ => if is_throw (fst (ApiService.checkHealth_default env w))
                               then offline_indicator else online_indicator)
                     (StatusManager.indicator sm) |},
     snd (ApiService.checkHealth_default env w)).
Proof.
  unfold StatusManager.checkHealth.
  destruct (ApiService.checkHealth_default env w) as [[v|e] w1];
    destruct sm as [[ind|]]; reflexivity.
Qed.

(** X6.  Of two updates in a row the second one decides, unless its
    status finds nothing in the table or its prototype: then the first
    one stands. *)
Theorem updateStatus_last_wins (first second : jsstring) (sm : StatusManager.t) :
  StatusManager.updateStatus second (StatusManager.updateStatus first sm)
  = match StatusManager.statusConfig second with
    | StatusManager.NoMember => StatusManager.updateStatus first sm
    | _ => StatusManager.updateStatus second sm
    end.
Proof.
  unfold StatusManager.updateStatus.
  destruct sm as [[ind|]]; cbn [StatusManager.indicator];
    destruct (StatusManager.statusConfig first);
    destruct (StatusManager.statusConfig second); reflexivity.
Qed.

(** X7.  [handleKeyPress] is [sendMessage] for the Enter key, busy or not
    (the busy test it makes is the one [sendMessage] makes again), and
    does nothing for any other key. *)
Theorem handleKeyPress_enter `{H : Host} (env : Env) (key : jsstring) (app : ChatModule.App) :
  ChatModule.handleKeyPress env key app
  = if str_eqb key (lit "Enter") then ChatModule.sendMessage env app
    else (app, ChatModule.Returned).
Proof.
  unfold ChatModule.handleKeyPress.
  destruct (str_eqb key (lit "Enter")); [|reflexivity].
  destruct (ChatModule.isLoading (ChatModule.chat app)) eqn:B; [|reflexivity].
  cbn [andb negb]. unfold ChatModule.sendMessage.
  now rewrite (sendMessage_begin_busy env app B).
Qed.

Lemma sendMessage_runs `{H : Host} (env : Env) (app : ChatModule.App) (inp : InputEl) :
  ChatModule.isLoading (ChatModule.chat app) = false ->
  ChatModule.input (ChatModule.chat app) = Some inp ->
  trim (value inp) <> [] ->
  ChatModule.sendMessage env app
  = (settled (trim (value inp))
       (fst (ApiService.sendQuery env (VStr (trim (value inp))) (ChatModule.world app)))
       (snd (ApiService.sendQuery env (VStr (trim (value inp))) (ChatModule.world app)))
       app,
     ChatModule.Returned).
Proof.
  intros I In T.
  unfold ChatModule.sendMessage, ChatModule.sendMessage_begin. rewrite I, In.
  destruct (trim (value inp)) as [|c m] eqn:E; [contradiction|].
  unfold ApiService.sendQuery.
  destruct (ApiService.sendQuery_send env (VStr (c :: m)) (ChatModule.world app))
    as [rep w1].
  unfold ChatModule.sendMessage_resume. cbn [ChatModule.world ChatModule.chat
    ChatModule.status ChatModule.results].
  destruct (ApiService.sendQuery_receive rep w1) as [r w2]. cbn [fst snd].
  unfold settled, awaiting_chat. reflexivity.
Qed.

Lemma addMessage_container `{H : Host} (content sender : jsstring) (c : ChatModule.t) :
  ChatModule.container (ChatModule.addMessage content sender c)
  = option_map (fun messages =>
                  messages ++ [{| tagName := lit "div";
                                  className := lit "message " ++ sender ++ lit "-message";
                                  textContent := content |}])
               (ChatModule.container c).
Proof.
  unfold ChatModule.addMessage.
  destruct (ChatModule.container c) eqn:E; cbn [ChatModule.container option_map];
    [reflexivity|exact E].
Qed.

Lemma addMessage_rest `{H : Host} (content sender : jsstring) (c : ChatModule.t) :
  ChatModule.input (ChatModule.addMessage content sender c) = ChatModule.input c
  /\ ChatModule.sendButton (ChatModule.addMessage content sender c)
     = ChatModule.sendButton c
  /\ ChatModule.isLoading (ChatModule.addMessage content sender c)
     = ChatModule.isLoading c.
Proof.
  unfold ChatModule.addMessage. destruct (ChatModule.container c); repeat split.
Qed.

Lemma setLoading_container `{H : Host} (loading : bool) (c : ChatModule.t) :
  ChatModule.container (ChatModule.setLoading loading c) = ChatModule.container c.
Proof.
  unfold ChatModule.setLoading.
  destruct (ChatModule.sendButton c), (ChatModule.input c), loading; reflexivity.
Qed.

Lemma setLoading_value `{H : Host} (loading : bool) (c : ChatModule.t) :
  option_map value (ChatModule.input (ChatModule.setLoading loading c))
  = option_map value (ChatModule.input c).
Proof.
  unfold ChatModule.setLoading.
  destruct (ChatModule.sendButton c), (ChatModule.input c), loading; reflexivity.
Qed.

Lemma awaiting_chat_container `{H : Host} (text : jsstring) (c : ChatModule.t) :
  ChatModule.container (awaiting_chat text c)
  = option_map (fun messages => messages ++ [user_message text])
               (ChatModule.container c).
Proof.
  unfold awaiting_chat. rewrite setLoading_container. cbn [ChatModule.clear_input
    ChatModule.container]. apply addMessage_container.
Qed.

Lemma awaiting_chat_value `{H : Host} (text : jsstring) (c : ChatModule.t) :
  option_map value (ChatModule.input (awaiting_chat text c))
  = option_map (fun _ => []) (ChatModule.input c).
Proof.
  unfold awaiting_chat. rewrite setLoading_value. cbn [ChatModule.clear_input
    ChatModule.input].
  rewrite (proj1 (addMessage_rest text (lit "user") c)).
  now destruct (ChatModule.input c).
Qed.

Lemma option_map_app {A : Type} (o : option (list A)) (a b : list A) :
  option_map (fun l => l ++ b) (option_map (fun l => l ++ a) o)
  = option_map (fun l => l ++ a ++ b) o.
Proof. destruct o; cbn; [now rewrite <- app_assoc|reflexivity]. Qed.

(** What a settled call leaves in the chat panel, whichever way it went. *)
Lemma settled_chat `{H : Host} (text : jsstring) (r : completion jsval) (w : World)
    (app : ChatModule.App) :
  exists reply : jsstring,
    ChatModule.container (ChatModule.chat (settled text r w app))
    = option_map (fun messages => messages ++ [user_message text; bot_message reply])
                 (ChatModule.container (ChatModule.chat app))
    /\ option_map value (ChatModule.input (ChatModule.chat (settled text r w app)))
       = option_map (fun _ => []) (ChatModule.input (ChatModule.chat app))
    /\ ChatModule.isLoading (ChatModule.chat (settled text r w app)) = false
    /\ ChatModule.world (settled text r w app) = w
    /\ reply
       = match r with
         | Normal data =>
             match fst (ResultsModule.displayResults data (ChatModule.results app)) with
             | Normal _ => ChatModule.botMessage
             | Throw error => lit "Maaf, terdapat ralat: " ++ message error
             end
         | Throw error => lit "Maaf, terdapat ralat: " ++ message error
         end.
Proof.
  unfold settled, ChatModule.on_finally, ChatModule.on_error.
  destruct r as [data|error];
    [destruct (ResultsModule.displayResults data (ChatModule.results app))
       as [[u|error] rm]|];
    cbn [ChatModule.chat ChatModule.world fst];
    eexists;
    rewrite setLoading_container, setLoading_value, setLoading_flag,
      addMessage_container, (proj1 (addMessage_rest _ _ _)),
      awaiting_chat_container, awaiting_chat_value, option_map_app;
    repeat split; reflexivity.
Qed.

Lemma settled_rest `{H : Host} (text : jsstring) (r : completion jsval) (w : World)
    (app : ChatModule.App) :
  ChatModule.results (settled text r w app)
  = match r with
    | Normal data => snd (ResultsModule.displayResults data (ChatModule.results app))
    | Throw _ => ChatModule.results app
    end
  /\ ChatModule.status (settled text r w app)
     = match r with
       | Normal data =>
           match fst (ResultsModule.displayResults data (ChatModule.results app)) with
           | Normal _ => ChatModule.status app
           | Throw _ =>
               StatusManager.updateStatus (lit "offline") (ChatModule.status app)
           end
       | Throw _ => StatusManager.updateStatus (lit "offline") (ChatModule.status app)
       end.
Proof.
  unfold settled, ChatModule.on_finally, ChatModule.on_error.
  destruct r as [data|error];
    [destruct (ResultsModule.displayResults data (ChatModule.results app))
       as [[u|error] rm]|];
    split; reflexivity.
Qed.

Lemma displayResults_throw_keeps `{H : Host} (data : jsval) (rm : ResultsModule.t)
    (e : js_error) :
  fst (ResultsModule.displayResults data rm) = Throw e ->
  snd (ResultsModule.displayResults data rm) = rm.
Proof.
  unfold ResultsModule.displayResults.
  destruct (ResultsModule.container rm); [|discriminate].
  destruct (negb (ToBoolean data)); [discriminate|].
  destruct (ResultsModule.results_html data); [discriminate|reflexivity].
Qed.

(** X8.  From an idle panel with some text, when the query returns a
    response and the renderer accepts it, [sendMessage] appends the
    trimmed text as a user message and the fixed confirmation as a bot
    message, empties the input, hands the response to the renderer,
    leaves the status alone and ends idle. *)
Theorem sendMessage_success `{H : Host} (env : Env) (app : ChatModule.App)
    (inp : InputEl) (data : jsval) (rm : ResultsModule.t) :
  ChatModule.isLoading (ChatModule.chat app) = false ->
  ChatModule.input (ChatModule.chat app) = Some inp ->
  trim (value inp) <> [] ->
  fst (ApiService.sendQuery env (VStr (trim (value inp))) (ChatModule.world app))
  = Normal data ->
  ResultsModule.displayResults data (ChatModule.results app) = (Normal tt, rm) ->
  ChatModule.container (ChatModule.chat (fst (ChatModule.sendMessage env app)))
  = option_map (fun messages =>
                  messages ++ [user_message (trim (value inp));
                               bot_message ChatModule.botMessage])
               (ChatModule.container (ChatModule.chat app))
  /\ option_map value
       (ChatModule.input (ChatModule.chat (fst (ChatModule.sendMessage env app))))
     = Some []
  /\ ChatModule.isLoading (ChatModule.chat (fst (ChatModule.sendMessage env app)))
     = false
  /\ ChatModule.results (fst (ChatModule.sendMessage env app)) = rm
  /\ ChatModule.status (fst (ChatModule.sendMessage env app)) = ChatModule.status app.
Proof.
  intros I In T Q D. rewrite (sendMessage_runs env app I In T). cbn [fst].
  rewrite Q.
  destruct (settled_chat (trim (value inp)) (Normal data)
              (snd (ApiService.sendQuery env (VStr (trim (value inp)))
                      (ChatModule.world app))) app)
    as (reply & C & V & L & _ & R).
  destruct (settled_rest (trim (value inp)) (Normal data)
              (snd (ApiService.sendQuery env (VStr (trim (value inp)))
                      (ChatModule.world app))) app) as [Rs St].
  rewrite D in R, Rs, St. cbn [fst snd] in R, Rs, St. subst reply.
  rewrite In in V. auto.
Qed.

(** X9.  When the query throws, [sendMessage] appends the trimmed text as
    a user message and a bot message with the error's message, sets the
    status to offline, leaves the results alone and ends idle. *)
Theorem sendMessage_failure `{H : Host} (env : Env) (app : ChatModule.App)
    (inp : InputEl) (e : js_error) :
  ChatModule.isLoading (ChatModule.chat app) = false ->
  ChatModule.input (ChatModule.chat app) = Some inp ->
  trim (value inp) <> [] ->
  fst (ApiService.sendQuery env (VStr (trim (value inp))) (ChatModule.world app))
  = Throw e ->
  ChatModule.container (ChatModule.chat (fst (ChatModule.sendMessage env app)))
  = option_map (fun messages =>
                  messages ++ [user_message (trim (value inp));
                               bot_message (lit "Maaf, terdapat ralat: " ++ message e)])
               (ChatModule.container (ChatModule.chat app))
  /\ ChatModule.status (fst (ChatModule.sendMessage env app))
     = StatusManager.updateStatus (lit "offline") (ChatModule.status app)
  /\ ChatModule.results (fst (ChatModule.sendMessage env app)) = ChatModule.results app
  /\ ChatModule.isLoading (ChatModule.chat (fst (ChatModule.sendMessage env app)))
     = false.
Proof.
  intros I In T Q. rewrite (sendMessage_runs env app I In T). cbn [fst].
  rewrite Q.
  destruct (settled_chat (trim (value inp)) (Throw e)
              (snd (ApiService.sendQuery env (VStr (trim (value inp)))
                      (ChatModule.world app))) app)
    as (reply & C & _ & L & _ & R).
  destruct (settled_rest (trim (value inp)) (@Throw jsval e)
              (snd (ApiService.sendQuery env (VStr (trim (value inp)))
                      (ChatModule.world app))) app) as [Rs St].
  subst reply. auto.
Qed.

(** X10.  When the query returns a response but rendering it throws,
    [sendMessage] reports that error in the chat and sets the status to
    offline all the same, and the results keep what they showed. *)
Theorem sendMessage_render_failure `{H : Host} (env : Env) (app : ChatModule.App)
    (inp : InputEl) (data : jsval) (e : js_error) :
  ChatModule.isLoading (ChatModule.chat app) = false ->
  ChatModule.input (ChatModule.chat app) = Some inp ->
  trim (value inp) <> [] ->
  fst (ApiService.sendQuery env (VStr (trim (value inp))) (ChatModule.world app))
  = Normal data ->
  fst (ResultsModule.displayResults data (ChatModule.results app)) = Throw e ->
  ChatModule.container (ChatModule.chat (fst (ChatModule.sendMessage env app)))
  = option_map (fun messages =>
                  messages ++ [user_message (trim (value inp));
                               bot_message (lit "Maaf, terdapat ralat: " ++ message e)])
               (ChatModule.container (ChatModule.chat app))
  /\ ChatModule.status (fst (ChatModule.sendMessage env app))
     = StatusManager.updateStatus (lit "offline") (ChatModule.status app)
  /\ ChatModule.results (fst (ChatModule.sendMessage env app)) = ChatModule.results app
  /\ ChatModule.isLoading (ChatModule.chat (fst (ChatModule.sendMessage env app)))
     = false.
Proof.
  intros I In T Q D. rewrite (sendMessage_runs env app I In T). cbn [fst].
  rewrite Q.
  destruct (settled_chat (trim (value inp)) (Normal data)
              (snd (ApiService.sendQuery env (VStr (trim (value inp)))
                      (ChatModule.world app))) app)
    as (reply & C & _ & L & _ & R).
  destruct (settled_rest (trim (value inp)) (Normal data)
              (snd (ApiService.sendQuery env (VStr (trim (value inp)))
                      (ChatModule.world app))) app) as [Rs St].
  rewrite (displayResults_throw_keeps _ _ D) in Rs.
  rewrite D in R, St. subst reply. auto.
Qed.

Lemma option_map_app_nil {A : Type} (o : option (list A)) :
  o = option_map (fun l => l ++ []) o.
Proof. destruct o; cbn; [now rewrite app_nil_r|reflexivity]. Qed.

(** X11.  A call of [sendMessage] never removes or changes a message: it
    appends nothing, or a user message followed by one bot message. *)
Theorem sendMessage_appends `{H : Host} (env : Env) (app : ChatModule.App) :
  exists added : list Element,
    ChatModule.container (ChatModule.chat (fst (ChatModule.sendMessage env app)))
    = option_map (fun messages => messages ++ added)
                 (ChatModule.container (ChatModule.chat app))
    /\ (added = []
        \/ exists text reply : jsstring,
             added = [user_message text; bot_message reply]).
Proof.
  destruct (ChatModule.isLoading (ChatModule.chat app)) eqn:I.
  - exists []. unfold ChatModule.sendMessage.
    rewrite (sendMessage_begin_busy env app I). cbn [fst].
    split; [apply option_map_app_nil|now left].
  - destruct (ChatModule.input (ChatModule.chat app)) as [inp|] eqn:In.
    + destruct (trim (value inp)) as [|c m] eqn:T.
      * exists []. unfold ChatModule.sendMessage, ChatModule.sendMessage_begin.
        rewrite I, In, T. cbn [fst]. split; [apply option_map_app_nil|now left].
      * assert (N : trim (value inp) <> []) by (rewrite T; discriminate).
        rewrite (sendMessage_runs env app I In N). cbn [fst].
        destruct (settled_chat (trim (value inp))
                    (fst (ApiService.sendQuery env (VStr (trim (value inp)))
                            (ChatModule.world app)))
                    (snd (ApiService.sendQuery env (VStr (trim (value inp)))
                            (ChatModule.world app))) app)
          as (reply & C & _).
        exists [user_message (trim (value inp)); bot_message reply].
        split; [exact C|right; eauto].
    + exists []. unfold ChatModule.sendMessage, ChatModule.sendMessage_begin.
      rewrite I, In. cbn [fst]. split; [apply option_map_app_nil|now left].
Qed.

(** X12.  A call of [sendMessage] awaits no delay and sends at most one
    request: none, or, from an idle panel whose input has text, the one
    query with the trimmed text. *)
Theorem sendMessage_requests `{H : Host} (env : Env) (app : ChatModule.App) :
  waits (ChatModule.world (fst (ChatModule.sendMessage env app)))
  = waits (ChatModule.world app)
  /\ exists requests : list Request,
       sent (ChatModule.world (fst (ChatModule.sendMessage env app)))
       = sent (ChatModule.world app) ++ requests
       /\ (requests = []
           \/ exists inp : InputEl,
                ChatModule.isLoading (ChatModule.chat app) = false
                /\ ChatModule.input (ChatModule.chat app) = Some inp
                /\ trim (value inp) <> []
                /\ requests = [query_request (VStr (trim (value inp)))
                                 (now (ChatModule.world app))]).
Proof.
  destruct (ChatModule.isLoading (ChatModule.chat app)) eqn:I.
  - unfold ChatModule.sendMessage. rewrite (sendMessage_begin_busy env app I).
    cbn [fst]. split; [reflexivity|]. exists []. rewrite app_nil_r. auto.
  - destruct (ChatModule.input (ChatModule.chat app)) as [inp|] eqn:In.
    + destruct (trim (value inp)) as [|c m] eqn:T.
      * unfold ChatModule.sendMessage, ChatModule.sendMessage_begin.
        rewrite I, In, T. cbn [fst]. split; [reflexivity|].
        exists []. rewrite app_nil_r. auto.
      * assert (N : trim (value inp) <> []) by (rewrite T; discriminate).
        rewrite (sendMessage_runs env app I In N). cbn [fst].
        destruct (settled_chat (trim (value inp))
                    (fst (ApiService.sendQuery env (VStr (trim (value inp)))
                            (ChatModule.world app)))
                    (snd (ApiService.sendQuery env (VStr (trim (value inp)))
                            (ChatModule.world app))) app)
          as (reply & _ & _ & _ & W & _).
        rewrite W. split; [reflexivity|].
        exists [query_request (VStr (trim (value inp))) (now (ChatModule.world app))].
        split; [apply sendQuery_one_request|].
        right. exists inp. rewrite T in *. auto.
    + unfold ChatModule.sendMessage, ChatModule.sendMessage_begin.
      rewrite I, In. cbn [fst]. split; [reflexivity|].
      exists []. rewrite app_nil_r. auto.
Qed.

(** X13.  With both controls present, a call that sends its query leaves
    the input emptied and disabled and the button disabled with the
    spinner while it waits, and, when it ends, the input enabled and
    focused once more and the button enabled with its label. *)
Theorem sendMessage_controls `{H : Host} (env : Env) (app : ChatModule.App)
    (inp : InputEl) (button : ButtonEl) :
  ChatModule.isLoading (ChatModule.chat app) = false ->
  ChatModule.input (ChatModule.chat app) = Some inp ->
  ChatModule.sendButton (ChatModule.chat app) = Some button ->
  trim (value inp) <> [] ->
  (exists (waiting : ChatModule.App) (rep : Reply),
      ChatModule.sendMessage_begin env app = (waiting, ChatModule.Awaiting rep)
      /\ ChatModule.input (ChatModule.chat waiting)
         = Some {| value := []; input_disabled := true;
                   focus_calls := focus_calls inp |}
      /\ ChatModule.sendButton (ChatModule.chat waiting)
         = Some {| btn_innerHTML := lit "<div class=" ++ quoted "loading" ++ lit "></div>";
                   btn_disabled := true |})
  /\ ChatModule.input (ChatModule.chat (fst (ChatModule.sendMessage env app)))
     = Some {| value := []; input_disabled := false;
               focus_calls := S (focus_calls inp) |}
  /\ ChatModule.sendButton (ChatModule.chat (fst (ChatModule.sendMessage env app)))
     = Some {| btn_innerHTML := lit "Hantar"; btn_disabled := false |}.
Proof.
  intros I In B T.
  assert (A : ChatModule.input (awaiting_chat (trim (value inp)) (ChatModule.chat app))
              = Some {| value := []; input_disabled := true;
                        focus_calls := focus_calls inp |}
              /\ ChatModule.sendButton
                   (awaiting_chat (trim (value inp)) (ChatModule.chat app))
                 = Some {| btn_innerHTML :=
                             lit "<div class=" ++ quoted "loading" ++ lit "></div>";
                           btn_disabled := true |}).
  { unfold awaiting_chat, ChatModule.setLoading.
    cbn [ChatModule.clear_input ChatModule.input ChatModule.sendButton].
    destruct (addMessage_rest (trim (value inp)) (lit "user") (ChatModule.chat app))
      as (E1 & E2 & _).
    rewrite E1, E2, In, B. split; reflexivity. }
  destruct A as [A1 A2]. split.
  - unfold ChatModule.sendMessage_begin. rewrite I, In.
    destruct (trim (value inp)) as [|c m] eqn:E; [contradiction|].
    destruct (ApiService.sendQuery_send env (VStr (c :: m)) (ChatModule.world app))
      as [rep w1].
    eexists. exists rep. split; [reflexivity|].
    cbn [ChatModule.chat]. fold (awaiting_chat (c :: m) (ChatModule.chat app)).
    auto.
  - rewrite (sendMessage_runs env app I In T). cbn [fst].
    unfold settled, ChatModule.on_finally, ChatModule.on_error.
    destruct (fst (ApiService.sendQuery env _ _)) as [data|error];
      [destruct (ResultsModule.displayResults data (ChatModule.results app))
         as [[u|error] rm]|];
      cbn [ChatModule.chat]; unfold ChatModule.setLoading;
      rewrite ?(proj1 (addMessage_rest _ _ _)),
        ?(proj1 (proj2 (addMessage_rest _ _ _))), A1, A2;
      split; reflexivity.
Qed.

Lemma sendMessage_success_witness :
  ChatModule.container
    (ChatModule.chat
       (fst (ChatModule.sendMessage answering_env
               (sample_app (lit " berapa orang ") false))))
  = Some [user_message (lit "berapa orang"); bot_message ChatModule.botMessage].
Proof.
  refine (proj1 (@sendMessage_success _ answering_env
                   (sample_app (lit " berapa orang ") false) sample_input
                   sample_response
                   (snd (ResultsModule.displayResults sample_response sample_results))
                   eq_refl eq_refl _ eq_refl eq_refl)).
  vm_compute. discriminate.
Defined.

Lemma sendMessage_failure_witness :
  ChatModule.container
    (ChatModule.chat
       (fst (ChatModule.sendMessage down_env (sample_app (lit " berapa orang ") false))))
  = Some [user_message (lit "berapa orang");
          bot_message (lit "Maaf, terdapat ralat: Failed to fetch")]
  /\ ChatModule.status
       (fst (ChatModule.sendMessage down_env (sample_app (lit " berapa orang ") false)))
     = {| StatusManager.indicator := Some offline_indicator |}.
Proof.
  refine ((fun P => conj (proj1 P) (proj1 (proj2 P)))
            (@sendMessage_failure _ down_env
               (sample_app (lit " berapa orang ") false) sample_input
               (fault_error NetworkFailure) eq_refl eq_refl _ eq_refl)).
  vm_compute. discriminate.
Defined.

Lemma sendMessage_render_failure_witness :
  ChatModule.status
    (fst (ChatModule.sendMessage incomplete_env
            (sample_app (lit " berapa orang ") false)))
  = {| StatusManager.indicator := Some offline_indicator |}
  /\ ChatModule.results
       (fst (ChatModule.sendMessage incomplete_env
               (sample_app (lit " berapa orang ") false)))
     = sample_results.
Proof.
  refine ((fun P => conj (proj1 (proj2 P)) (proj1 (proj2 (proj2 P))))
            (@sendMessage_render_failure _ incomplete_env
               (sample_app (lit " berapa orang ") false) sample_input
               (VObj [(lit "plan", VObj [])])
               (fault_error (ReadOfNullish (lit "total")))
               eq_refl eq_refl _ eq_refl eq_refl)).
  vm_compute. discriminate.
Defined.

Lemma sendMessage_controls_witness :
  ChatModule.sendButton
    (ChatModule.chat
       (fst (ChatModule.sendMessage answering_env
               (sample_app (lit " berapa orang ") false))))
  = Some {| btn_innerHTML := lit "Hantar"; btn_disabled := false |}.
Proof.
  refine (proj2 (proj2 (@sendMessage_controls _ answering_env
                          (sample_app (lit " berapa orang ") false) sample_input
                          {| btn_innerHTML := lit "Hantar"; btn_disabled := false |}
                          eq_refl eq_refl eq_refl _))).
  vm_compute. discriminate.
Defined.

(** ** utils.js *)

Lemma unescape_escaped (s : jsstring) : unescape (flat_map escape_unit s) = s.
Proof.
  unfold unescape. induction s as [|c s IH]; [reflexivity|].
  cbn [flat_map]. remember (flat_map escape_unit s) as t eqn:Et. clear Et.
  unfold escape_unit.
  destruct (N.eqb_spec c AMP) as [->|n]; [cbn; now rewrite IH|].
  destruct (N.eqb_spec c NBSP) as [->|n0]; [cbn; now rewrite IH|].
  destruct (N.eqb_spec c LT) as [->|n1]; [cbn; now rewrite IH|].
  destruct (N.eqb_spec c GT) as [->|n2]; [cbn; now rewrite IH|].
  cbn [app unescape_from]. apply N.eqb_neq in n. now rewrite n, IH.
Qed.

(** X20.  [escapeHtml] loses nothing: replacing the four entities in its
    result gives the text back, so two texts with the same result are
    the same text. *)
Theorem escapeHtml_lossless `{H : Host} (s : jsstring) :
  exists out : jsstring,
    Utils.escapeHtml (VStr s) = Normal out
    /\ unescape out = s
    /\ forall s' : jsstring, Utils.escapeHtml (VStr s') = Normal out -> s' = s.
Proof.
  exists (flat_map escape_unit s). rewrite escapeHtml_string.
  split; [reflexivity|]. split; [apply unescape_escaped|].
  intros s' E. rewrite escapeHtml_string in E. injection E as E.
  rewrite <- (unescape_escaped s'), E. apply unescape_escaped.
Qed.

(** formatKey twice *)

Lemma upper_upper (c : code_unit) : upper (upper c) = upper c.
Proof.
  unfold upper.
  destruct (N.leb_spec 97 c); cbn [andb]; [|now destruct (N.leb_spec 97 c); [lia|]].
  destruct (N.leb_spec c 122); cbn [andb].
  - destruct (N.leb_spec 97 (c - 32)); [lia|reflexivity].
  - destruct (N.leb_spec 97 c); [|lia]. destruct (N.leb_spec c 122); [lia|reflexivity].
Qed.

Lemma is_word_upper (c : code_unit) : Utils.is_word (upper c) = Utils.is_word c.
Proof.
  unfold upper.
  destruct (N.leb 97 c && N.leb c 122) eqn:E; [|reflexivity].
  apply andb_true_iff in E as [E1 E2]. apply N.leb_le in E1, E2.
  unfold Utils.is_word.
  replace (N.leb 97 c) with true by (symmetry; apply N.leb_le; lia).
  replace (N.leb c 122) with true by (symmetry; apply N.leb_le; lia).
  replace (N.leb 65 (c - 32)) with true by (symmetry; apply N.leb_le; lia).
  replace (N.leb (c - 32) 90) with true by (symmetry; apply N.leb_le; lia).
  replace (N.leb 97 (c - 32)) with false by (symmetry; apply N.leb_gt; lia).
  reflexivity.
Qed.

Lemma capitalize_boundaries_cons (left : bool) (c : code_unit) (s : jsstring) :
  Utils.capitalize_boundaries left (c :: s)
  = (if Utils.is_word c && negb left then upper c else c)
    :: Utils.capitalize_boundaries (Utils.is_word c) s.
Proof.
  cbn [Utils.capitalize_boundaries]. rewrite toUpperCase1_upper.
  now destruct (Utils.is_word c && negb left).
Qed.

Lemma capitalize_boundaries_again (s : jsstring) :
  forall left : bool,
    Utils.capitalize_boundaries left (Utils.capitalize_boundaries left s)
    = Utils.capitalize_boundaries left s.
Proof.
  induction s as [|c s IH]; intros left; [reflexivity|].
  rewrite !capitalize_boundaries_cons.
  assert (W : Utils.is_word (if Utils.is_word c && negb left then upper c else c)
              = Utils.is_word c)
    by (destruct (Utils.is_word c && negb left); [apply is_word_upper|reflexivity]).
  rewrite W, IH. f_equal.
  destruct (Utils.is_word c && negb left); [apply upper_upper|reflexivity].
Qed.

Lemma upper_not_underscore (c : code_unit) :
  N.eqb c UNDERSCORE = false -> N.eqb (upper c) UNDERSCORE = false.
Proof.
  unfold upper, UNDERSCORE. intros E.
  destruct (N.leb 97 c && N.leb c 122) eqn:A; [|exact E].
  apply andb_true_iff in A as [A1 A2]. apply N.leb_le in A1, A2.
  apply N.eqb_neq. lia.
Qed.

Lemma capitalize_boundaries_no_underscore (s : jsstring) :
  forall left : bool,
    mem UNDERSCORE s = false ->
    mem UNDERSCORE (Utils.capitalize_boundaries left s) = false.
Proof.
  induction s as [|c s IH]; intros left M; [reflexivity|].
  rewrite capitalize_boundaries_cons. unfold mem in *. cbn [existsb] in *.
  apply orb_false_iff in M as [M1 M2]. rewrite (IH _ M2), orb_false_r.
  rewrite N.eqb_sym in M1. rewrite N.eqb_sym.
  destruct (Utils.is_word c && negb left); [now apply upper_not_underscore|exact M1].
Qed.

Lemma replace_unit_absent (c : code_unit) (r s : jsstring) :
  mem c s = false -> replace_unit c r s = s.
Proof.
  induction s as [|x s IH]; [reflexivity|].
  unfold mem. cbn [existsb]. intros M. apply orb_false_iff in M as [M1 M2].
  rewrite replace_unit_cons, (IH M2). rewrite N.eqb_sym in M1. now rewrite M1.
Qed.

Lemma unscored_no_underscore (key : jsstring) :
  mem UNDERSCORE (map unscore key) = false.
Proof.
  induction key as [|c key IH]; [reflexivity|].
  unfold mem in *. cbn [map existsb]. rewrite IH, orb_false_r.
  unfold unscore. destruct (N.eqb_spec c UNDERSCORE) as [->|n]; [reflexivity|].
  apply N.eqb_neq. congruence.
Qed.

(** X19.  [formatKey] leaves no underscore and changes nothing when
    applied again. *)
Theorem formatKey_idempotent (key : jsstring) :
  Utils.formatKey (Utils.formatKey key) = Utils.formatKey key
  /\ mem UNDERSCORE (Utils.formatKey key) = false.
Proof.
  assert (M : mem UNDERSCORE (Utils.formatKey key) = false).
  { unfold Utils.formatKey. rewrite replace_underscores.
    apply capitalize_boundaries_no_underscore, unscored_no_underscore. }
  split; [|exact M].
  unfold Utils.formatKey at 1. rewrite (@replace_unit_absent UNDERSCORE [SPACE] _ M).
  unfold Utils.formatKey. apply capitalize_boundaries_again.
Qed.

(** ** resultsModule.js *)

Lemma displayResults_attached `{H : Host} (data : jsval) (rm : ResultsModule.t) :
  ResultsModule.container rm <> None ->
  ResultsModule.container (snd (ResultsModule.displayResults data rm)) <> None.
Proof.
  unfold ResultsModule.displayResults.
  destruct (ResultsModule.container rm) eqn:C; [|contradiction]. intros _.
  destruct (negb (ToBoolean data)); [cbn; congruence|].
  destruct (ResultsModule.results_html data); cbn; congruence.
Qed.

(** X14.  With a surface attached, a response that renders replaces
    whatever an earlier call left: the output is the markup of the
    last response alone. *)
Theorem displayResults_replaces `{H : Host} (first second : jsval)
    (rm : ResultsModule.t) (html : jsstring) :
  ResultsModule.container rm <> None ->
  ToBoolean second = true ->
  ResultsModule.results_html second = Normal html ->
  ResultsModule.displayResults second (snd (ResultsModule.displayResults first rm))
  = (Normal tt, {| ResultsModule.container := Some {| res_innerHTML := html |} |}).
Proof.
  intros A T R. pose proof (@displayResults_attached _ first rm A) as A'.
  unfold ResultsModule.displayResults at 1.
  destruct (ResultsModule.container (snd (ResultsModule.displayResults first rm)));
    [|contradiction].
  now rewrite T, R.
Qed.

(** X15.  A call of [displayResults] that throws leaves the surface as it
    was (and has a surface and a present response). *)
Theorem displayResults_failure_keeps `{H : Host} (data : jsval) (rm : ResultsModule.t) :
  is_throw (fst (ResultsModule.displayResults data rm)) = true ->
  snd (ResultsModule.displayResults data rm) = rm
  /\ ResultsModule.container rm <> None
  /\ ToBoolean data = true.
Proof.
  unfold ResultsModule.displayResults.
  destruct (ResultsModule.container rm) eqn:C; [|discriminate].
  destruct (ToBoolean data); [|discriminate]. cbn [negb].
  destruct (ResultsModule.results_html data); [discriminate|].
  intros _. repeat split. congruence.
Qed.

Lemma Get_response `{H : Host} (plan : jsval) (answer : list (jsstring * jsval)) :
  Get (response_of plan answer) (lit "plan") = Normal plan
  /\ Get (response_of plan answer) (lit "answer") = Normal (VObj answer).
Proof. split; reflexivity. Qed.

Lemma Get_skip `{H : Host} (k k' : jsstring) (v : jsval) (props : list (jsstring * jsval)) :
  str_eqb k k' = false -> Get (VObj ((k', v) :: props)) k = Get (VObj props) k.
Proof. intros E. cbn [Get lookup]. now rewrite E. Qed.

Lemma Get_first `{H : Host} (k : jsstring) (v : jsval) (props : list (jsstring * jsval)) :
  Get (VObj ((k, v) :: props)) k = Normal v.
Proof. cbn [Get lookup]. now rewrite str_eqb_refl. Qed.

Lemma Get_absent `{H : Host} (k : jsstring) (props : list (jsstring * jsval)) :
  lookup k props = None -> Get (VObj props) k = Normal VUndefined.
Proof. intros E. cbn [Get]. now rewrite E. Qed.

Lemma results_html_no_rows `{H : Host} (plan groups : jsval)
    (answer : list (jsstring * jsval)) :
  lookup (lit "groups") answer = None ->
  ToBoolean groups = false \/ groups = VArr [] ->
  ResultsModule.results_html (response_of plan ((lit "groups", groups) :: answer))
  = ResultsModule.results_html (response_of plan answer).
Proof.
  intros L G. unfold ResultsModule.results_html.
  rewrite !(proj1 (Get_response _ _)). cbn [bind].
  rewrite !(proj2 (Get_response _ _)). cbn [bind].
  rewrite (@Get_skip H (lit "total") (lit "groups") groups answer eq_refl).
  destruct (Get (VObj answer) (lit "total")) as [total|e]; [|reflexivity].
  cbn [bind].
  match goal with
  | |- bind ?c _ = _ => destruct c as [html1|e]; [|reflexivity]
  end.
  cbn [bind]. destruct (ResultsModule.generatePlanCard plan) as [card|e]; [|reflexivity].
  cbn [bind]. rewrite Get_first, (Get_absent _ _ L). cbn [bind ToBoolean].
  destruct G as [G| ->]; [now rewrite G|reflexivity].
Qed.

(** X16.  An answer whose [groups] member is an empty array, or falsy,
    is displayed exactly as the answer without that member: no
    breakdown card. *)
Theorem displayResults_no_rows `{H : Host} (plan groups : jsval)
    (answer : list (jsstring * jsval)) (rm : ResultsModule.t) :
  lookup (lit "groups") answer = None ->
  ToBoolean groups = false \/ groups = VArr [] ->
  ResultsModule.displayResults (response_of plan ((lit "groups", groups) :: answer)) rm
  = ResultsModule.displayResults (response_of plan answer) rm.
Proof.
  intros L G. unfold ResultsModule.displayResults.
  now rewrite (@results_html_no_rows H plan groups answer L G).
Qed.

Lemma mapM_map {A B C : Type} (f : A -> completion B) (h : C -> A) (g : C -> B)
    (l : list C) :
  Forall (fun x => f (h x) = Normal (g x)) l ->
  mapM f (map h l) = Normal (map g l).
Proof.
  induction 1 as [|x l E _ IH]; [reflexivity|].
  cbn [mapM map]. now rewrite E, IH.
Qed.

Lemma group_row_value `{H : Host} (fmt : number -> jsstring) (r : Row) :
  (forall n : number, Utils.formatNumber (VNum n) = Normal (fmt n)) ->
  str_eqb (lit "COUNT") (row_field r) = false ->
  ResultsModule.group_row (row_value r) = Normal (shown_row fmt r).
Proof.
  intros F N. unfold ResultsModule.group_row, row_value.
  cbn [Object_entries bind ResultsModule.first_member].
  rewrite (@Get_skip H (lit "COUNT") (row_field r) _ _ N), (@Get_first H). cbn [bind].
  rewrite escapeHtml_string. cbn [bind]. rewrite F. reflexivity.
Qed.

Lemma group_block_value `{H : Host} (fmt : number -> jsstring) (g : Group) :
  (forall n : number, Utils.formatNumber (VNum n) = Normal (fmt n)) ->
  forallb (fun r => negb (str_eqb (lit "COUNT") (row_field r))) (group_rows g) = true ->
  ResultsModule.group_block (group_value g) = Normal (shown_group fmt g).
Proof.
  intros F N. unfold ResultsModule.group_block, group_value.
  rewrite (@Get_first H). cbn [bind]. rewrite escapeHtml_string. cbn [bind].
  rewrite (@Get_skip H (lit "data") (lit "label") _ _ eq_refl), (@Get_first H).
  cbn [bind call_map].
  rewrite (@mapM_map _ _ _ ResultsModule.group_row row_value (shown_row fmt)).
  - reflexivity.
  - apply Forall_forall. intros r Hr.
    apply group_row_value; [exact F|].
    rewrite forallb_forall in N. specialize (N r Hr).
    now apply negb_true_iff in N.
Qed.

(** X17.  For groups of rows made of a field with a text and a [COUNT],
    the field not being called COUNT, and a formatter that formats
    every number, the breakdown card holds one block per group and one
    row per row, in the order given, every row with its escaped text
    and its formatted count. *)
Theorem generateGroupsCard_rows `{H : Host} (fmt : number -> jsstring)
    (groups : list Group) :
  (forall n : number, Utils.formatNumber (VNum n) = Normal (fmt n)) ->
  forallb (fun g => forallb (fun r => negb (str_eqb (lit "COUNT") (row_field r)))
                            (group_rows g))
          groups = true ->
  ResultsModule.generateGroupsCard (VArr (map group_value groups))
  = Normal (groups_card (concat (map (shown_group fmt) groups))).
Proof.
  intros F N. unfold ResultsModule.generateGroupsCard. cbn [call_map].
  rewrite (@mapM_map _ _ _ ResultsModule.group_block group_value (shown_group fmt)).
  - reflexivity.
  - apply Forall_forall. intros g Hg.
    apply group_block_value; [exact F|].
    rewrite forallb_forall in N. exact (N g Hg).
Qed.

Lemma generateGroupsCard_rows_witness :
  ResultsModule.generateGroupsCard
    (VArr [VObj [(lit "label", VStr (lit "By State"));
                 (lit "data", VArr [VObj [(lit "state", VStr (lit "Selangor"));
                                          (lit "COUNT", VNum 9000%Z)]])]])
  = Normal (groups_card
              (block_markup (lit "By State")
                 (row_markup (lit "Selangor") (lit "9,000")))).
Proof.
  exact (@generateGroupsCard_rows _ Z_grouped
           [{| group_label := lit "By State";
               group_rows := [{| row_field := lit "state"; row_text := lit "Selangor";
                                 row_count := 9000%Z |}] |}]
           (fun n => eq_refl) eq_refl).
Defined.

(** Markup in a key *)

Lemma count_unit_cons (x c : code_unit) (s : jsstring) :
  count_unit x (c :: s) = (if N.eqb x c then 1 else 0) + count_unit x s.
Proof. unfold count_unit. cbn [filter]. now destruct (N.eqb x c). Qed.

Lemma eqb_upper (x c : code_unit) :
  is_letter x = false -> N.eqb x (upper c) = N.eqb x c.
Proof.
  unfold is_letter, upper. intros L.
  destruct (N.leb 97 c && N.leb c 122) eqn:E; [|reflexivity].
  apply andb_true_iff in E as [E1 E2]. apply N.leb_le in E1, E2.
  apply orb_false_iff in L as [L1 L2].
  destruct (N.eqb_spec x c) as [->|n].
  - apply andb_false_iff in L1 as [L1|L1]; apply N.leb_gt in L1; lia.
  - apply N.eqb_neq. intros ->.
    apply andb_false_iff in L2 as [L2|L2]; apply N.leb_gt in L2; lia.
Qed.

Lemma eqb_unscore (x c : code_unit) :
  N.eqb x SPACE = false -> N.eqb x UNDERSCORE = false ->
  N.eqb x (unscore c) = N.eqb x c.
Proof.
  intros S U. unfold unscore.
  destruct (N.eqb_spec c UNDERSCORE) as [->|n]; [now rewrite S, U|reflexivity].
Qed.

Lemma formatKey_keeps (x : code_unit) (key : jsstring) :
  is_letter x = false -> N.eqb x SPACE = false -> N.eqb x UNDERSCORE = false ->
  count_unit x (Utils.formatKey key) = count_unit x key.
Proof.
  intros L S U. unfold Utils.formatKey. rewrite replace_underscores.
  generalize false as left. induction key as [|c key IH]; intros left; [reflexivity|].
  cbn [map]. rewrite capitalize_boundaries_cons, !count_unit_cons, IH.
  f_equal.
  destruct (Utils.is_word (unscore c) && negb left).
  - now rewrite (@eqb_upper x (unscore c) L), (@eqb_unscore x c S U).
  - now rewrite (@eqb_unscore x c S U).
Qed.

Lemma includes_here (p rest : jsstring) : includes (p ++ rest) p = true.
Proof.
  assert (S : starts_with p (p ++ rest) = true).
  { induction p as [|c p IH]; [reflexivity|]. cbn. now rewrite N.eqb_refl, IH. }
  destruct p; cbn [app includes] in *; [destruct rest; reflexivity|].
  now rewrite S.
Qed.

Lemma includes_later (a s p : jsstring) :
  includes s p = true -> includes (a ++ s) p = true.
Proof.
  intros E. induction a as [|c a IH]; [exact E|].
  cbn [app includes]. rewrite IH. apply orb_true_r.
Qed.

(** X18.  The key of a search parameter goes into the card humanized but
    not escaped: the card holds [formatKey(key)] as it is, and
    [formatKey] keeps every [<], [>], [&] and double quote of the key. *)
Theorem generatePlanCard_key_verbatim `{H : Host} (key text : jsstring) :
  str_eqb text (lit "Any") = false ->
  exists card : jsstring,
    ResultsModule.generatePlanCard (text_plan [(key, text)]) = Normal card
    /\ includes card (Utils.formatKey key) = true
    /\ count_unit LT (Utils.formatKey key) = count_unit LT key
    /\ count_unit GT (Utils.formatKey key) = count_unit GT key
    /\ count_unit AMP (Utils.formatKey key) = count_unit AMP key
    /\ count_unit DQUOTE (Utils.formatKey key) = count_unit DQUOTE key.
Proof.
  intros A. eexists. split; [|split].
  - unfold text_plan. rewrite generatePlanCard_block, parameters_block_text.
    unfold specified. cbn [filter]. rewrite A. cbn [negb map concat bind].
    reflexivity.
  - unfold ResultsModule.plan_card, shown_parameter, ResultsModule.plan_item.
    cbn [fst snd]. rewrite <- !app_assoc.
    repeat (apply includes_here || apply includes_later).
  - repeat split; apply formatKey_keeps; reflexivity.
Qed.

Lemma generatePlanCard_key_verbatim_witness :
  exists card : jsstring,
    ResultsModule.generatePlanCard
      (text_plan [(lit "<b>age_group</b>", lit "18-24")]) = Normal card
    /\ includes card (lit "<B>Age Group</B>") = true.
Proof.
  destruct (@generatePlanCard_key_verbatim _ (lit "<b>age_group</b>") (lit "18-24")
              eq_refl) as (card & E & I & _).
  exists card. split; [exact E|exact I].
Defined.

Lemma displayResults_replaces_witness :
  ResultsModule.displayResults
    (response_of (VObj [(lit "gender", VStr (lit "Male"))]) [])
    (snd (ResultsModule.displayResults sample_response sample_results))
  = (Normal tt,
     {| ResultsModule.container :=
          Some {| res_innerHTML :=
                    ResultsModule.plan_card
                      (ResultsModule.plan_item (lit "Gender") (lit "Male")) |} |}).
Proof.
  refine (@displayResults_replaces _ sample_response
            (response_of (VObj [(lit "gender", VStr (lit "Male"))]) [])
            sample_results _ _ eq_refl eq_refl).
  discriminate.
Defined.

Lemma displayResults_failure_keeps_witness :
  snd (ResultsModule.displayResults (VObj [(lit "plan", VObj [])]) sample_results)
  = sample_results.
Proof.
  exact (proj1 (@displayResults_failure_keeps _ (VObj [(lit "plan", VObj [])])
                  sample_results eq_refl)).
Defined.

Lemma displayResults_no_rows_witness :
  ResultsModule.displayResults
    (response_of (VObj []) [(lit "groups", VArr []); (lit "total", VNum 7%Z)])
    sample_results
  = ResultsModule.displayResults (response_of (VObj []) [(lit "total", VNum 7%Z)])
      sample_results.
Proof.
  exact (@displayResults_no_rows _ (VObj []) (VArr []) [(lit "total", VNum 7%Z)]
           sample_results eq_refl (or_intror eq_refl)).
Defined.

(** ** utils.js: debounce *)

Section DebounceProofs.
Variable A : Type.
Variable wait : N.











End DebounceProofs.

